(** * demo-fastify: the session/auth core of [src/auth.ts] and the routes of
    [src/server.ts], embedded shallowly.

    The embedding follows the current revision of [auth.ts] (the one that
    carries [adminScopes]).  Three dependencies are not part of the
    repository and are kept abstract or modelled after their documented
    behaviour:
    - [bcryptjs]: [compareSync] is a parameter, the two salted hashes
      computed at module load are parameters;
    - [jsonwebtoken]: [jwt.sign] and [jwt.verify] are modelled in [Module jwt]
      over an abstract MAC and an abstract compact serialisation;
    - [@fastify/cookie]: [reply.setCookie], [reply.clearCookie] are recorded
      as operations on the reply, [request.unsignCookie] is a field of the
      request. *)

From Stdlib Require Import ZArith Ascii String List Bool Lia.
From stdpp Require Import base option list strings gmap countable.

Local Open Scope string_scope.
Local Open Scope Z_scope.

(** ** JavaScript values, as far as the code looks at them *)

#[warnings="-register-all"]
Inductive JValue : Type :=
| JUndefined
| JNull
| JBool (b : bool)
| JNum (n : Z)
| JStr (s : string)
| JArr (items : list JValue)
| JObj (props : list (string * JValue)).

(** What a [throw] carries. *)
Inductive Exn : Type :=
| TypeError (msg : string)
| Error (msg : string)
| JsonWebTokenError (msg : string)
| NotBeforeError
| TokenExpiredError.

(** A JavaScript computation either completes normally or throws. *)
Inductive Completion (A : Type) : Type :=
| Normal (a : A)
| Throw (e : Exn).
Arguments Normal {A} a.
Arguments Throw {A} e.

#[global] Instance Completion_ret : MRet Completion := fun _ a => Normal a.
#[global] Instance Completion_bind : MBind Completion := fun _ _ k c =>
  match c with
  | Normal a => k a
  | Throw e => Throw e
  end.

(** [try { body } catch { handler }] *)
Definition tryCatch {A} (body : Completion A) (handler : Exn -> Completion A)
  : Completion A :=
  match body with
  | Normal a => Normal a
  | Throw e => handler e
  end.

(** First binding of a key in an object's property list. *)
Fixpoint assoc (k : string) (props : list (string * JValue)) : option JValue :=
  match props with
  | [] => None
  | (k', v) :: rest => if String.eqb k k' then Some v else assoc k rest
  end.

(** [v.k]: reading a property of [undefined] or [null] throws, a missing
    property reads as [undefined]. *)
Definition getProp (v : JValue) (k : string) : Completion JValue :=
  match v with
  | JUndefined | JNull =>
      Throw (TypeError "Cannot read properties of undefined or null")
  | JObj props => Normal (default JUndefined (assoc k props))
  | _ => Normal JUndefined
  end.

(** [v ?? d] *)
Definition nullish (v d : JValue) : JValue :=
  match v with
  | JUndefined | JNull => d
  | _ => v
  end.

(** ToBoolean on a value that is a string or absent: the shape of
    [request.cookies.session] and of what [unsignCookie] extracts. *)
Definition truthy (s : option string) : bool :=
  match s with
  | Some s => negb (String.eqb s "")
  | None => false
  end.

(** ToBoolean on any value.  Numbers are kept as integers here; a
    fraction would be as truthy as any other non-zero number. *)
Definition toBoolean (v : JValue) : bool :=
  match v with
  | JUndefined | JNull => false
  | JBool b => b
  | JNum n => negb (n =? 0)
  | JStr s => negb (String.eqb s "")
  | JArr _ | JObj _ => true
  end.

(** ** jsonwebtoken *)

Module jwt.

(** A decoded compact JWS: protected header, payload, signature segment. *)
Record Jws : Type := mkJws {
  header : JValue;
  payload : JValue;
  signature : string
}.

(** ['1d'] as [jwt.sign] reads it: a time span in seconds. *)
Definition ONE_DAY : Z := 24 * 60 * 60.

Definition HMAC_ALGS : list string := ["HS256"; "HS384"; "HS512"].

Section Lib.
(** [hmac alg key header payload]: the signature segment over the first
    two segments. *)
Variable hmac : string -> string -> JValue -> JValue -> string.
(** base64url/JSON decoding of [a.b.c]; [None] when the string does not
    have three decodable segments. *)
Variable decodeJws : string -> option Jws.
Variable encodeJws : Jws -> string.

(** [jwt.sign(payload, secret, { expiresIn })] at clock [now] (seconds):
    HS256, with [iat] and [exp] added to a copy of the payload. *)
Definition sign (claims : list (string * JValue)) (secret : string)
    (expiresIn : Z) (now : Z) : Completion string :=
  if String.eqb secret "" then
    Throw (Error "secretOrPrivateKey must have a value")
  else
    let h := JObj [("alg", JStr "HS256"); ("typ", JStr "JWT")] in
    let p := JObj (claims ++ [("iat", JNum now); ("exp", JNum (now + expiresIn))]) in
    Normal (encodeJws (mkJws h p (hmac "HS256" secret h p))).

Definition checkNbf (p : JValue) (now : Z) : Completion unit :=
  nbf ← getProp p "nbf";
  match nbf with
  | JUndefined => Normal tt
  | JNum n => if now <? n then Throw NotBeforeError else Normal tt
  | _ => Throw (JsonWebTokenError "invalid nbf value")
  end.

Definition checkExp (p : JValue) (now : Z) : Completion unit :=
  exp ← getProp p "exp";
  match exp with
  | JUndefined => Normal tt
  | JNum e => if e <=? now then Throw TokenExpiredError else Normal tt
  | _ => Throw (JsonWebTokenError "invalid exp value")
  end.

(** [jwt.verify(token, secret)] at clock [now], no options. *)
Definition verify (token secret : string) (now : Z) : Completion JValue :=
  if String.eqb token "" then
    Throw (JsonWebTokenError "jwt must be provided")
  else
    match decodeJws token with
    | None => Throw (JsonWebTokenError "jwt malformed")
    | Some j =>
        if String.eqb (signature j) "" then
          Throw (JsonWebTokenError "jwt signature is required")
        else if String.eqb secret "" then
          Throw (JsonWebTokenError "secret or public key must be provided")
        else
          alg ← getProp (header j) "alg";
          match alg with
          | JStr a =>
              if negb (existsb (String.eqb a) HMAC_ALGS) then
                Throw (JsonWebTokenError "invalid algorithm")
              else if negb (String.eqb (signature j)
                              (hmac a secret (header j) (payload j))) then
                Throw (JsonWebTokenError "invalid signature")
              else
                _ ← checkNbf (payload j) now;
                _ ← checkExp (payload j) now;
                Normal (payload j)
          | _ => Throw (JsonWebTokenError "invalid algorithm")
          end
    end.
End Lib.

End jwt.

(** ** The data of [auth.ts] *)

Module Group.
(** [{ type: string; id?: string; groupId?: string; name: string }] *)
Record t : Type := mk {
  type : string;
  id : option string;
  groupId : option string;
  name : string
}.

Definition optional (k : string) (v : option string) : list (string * JValue) :=
  match v with
  | Some s => [(k, JStr s)]
  | None => []
  end.

(** The object as a value; an absent optional member has no property. *)
Definition toJS (g : t) : JValue :=
  JObj ([("type", JStr (type g))] ++ optional "id" (id g)
        ++ optional "groupId" (groupId g) ++ [("name", JStr (name g))]).
End Group.

Module User.
(** An element of the module-level [users] array. *)
Record t : Type := mk {
  id : string;
  email : string;
  password : string;
  adminScopes : list string;
  role : string;
  groups : list Group.t
}.
End User.

Module DemoUser.
(** [interface DemoUser] *)
Record t : Type := mk {
  id : string;
  email : string;
  adminScopes : list string;
  role : string;
  groups : list Group.t
}.
End DemoUser.

Module Claims.
(** What [verifySessionJWT] builds.  Its declared type is [DemoUser], but
    the members are read off [decoded as any], so at run time each holds
    whatever the payload holds. *)
Record t : Type := mk {
  id : JValue;
  email : JValue;
  adminScopes : JValue;
  role : JValue;
  groups : JValue
}.

(** A well-typed [DemoUser] seen as such an object. *)
Definition of_user (u : DemoUser.t) : t :=
  {| id := JStr (DemoUser.id u);
     email := JStr (DemoUser.email u);
     adminScopes := JArr (JStr <$> DemoUser.adminScopes u);
     role := JStr (DemoUser.role u);
     groups := JArr (Group.toJS <$> DemoUser.groups u) |}.
End Claims.

(** The five members of a stored record that [authenticateUser] and
    [getDemoUsers] copy out: every member but [password]. *)
Definition publicFields (r : User.t) : DemoUser.t :=
  DemoUser.mk (User.id r) (User.email r) (User.adminScopes r) (User.role r)
    (User.groups r).

(** [process.env], the variables the code reads. *)
Record ProcessEnv : Type := {
  env_JWT_SECRET : option string;
  env_NODE_ENV : option string
}.

(** [a || b] on a string that may be absent. *)
Definition or_else (a : option string) (b : string) : string :=
  match a with
  | Some s => if String.eqb s "" then b else s
  | None => b
  end.

(** The module-level bindings of [auth.ts] together with the process
    environment: all the state the server holds between requests. *)
Record Server : Type := {
  env : ProcessEnv;
  users : list User.t;
  JWT_SECRET : string
}.

Section Demo.
(** bcryptjs.  [hashSync] draws a fresh salt; each password of the store is
    hashed once, at module load, so a function of the password stands for
    the two hashes obtained. *)
Variable hashSync : string -> Z -> string.
Variable compareSync : string -> string -> bool.
(** jsonwebtoken's primitives, see [Module jwt]. *)
Variable hmac : string -> string -> JValue -> JValue -> string.
Variable decodeJws : string -> option jwt.Jws.
Variable encodeJws : jwt.Jws -> string.
(** [new Date(ms).toISOString()], the clock being kept in seconds. *)
Variable toISOString : Z -> string.

(** Evaluation of the module body. *)
Definition load (e : ProcessEnv) : Server :=
  {| env := e;
     users :=
       [ User.mk "user-1" "admin@example.com" (hashSync "password123" 10)
           ["autojoin"] "admin"
           [ Group.mk "team" (Some "team-1") None "Engineering";
             Group.mk "organization" (Some "org-1") None "Acme Corp" ];
         User.mk "user-2" "user@example.com" (hashSync "userpass" 10)
           [] "user"
           [ Group.mk "team" (Some "team-1") None "Engineering" ] ];
     JWT_SECRET := or_else (env_JWT_SECRET e) "demo-secret-key" |}.

Definition createSessionJWT (s : Server) (now : Z) (user : DemoUser.t)
  : Completion string :=
  jwt.sign hmac encodeJws
    [ ("userId", JStr (DemoUser.id user));
      ("email", JStr (DemoUser.email user));
      ("adminScopes", JArr (JStr <$> DemoUser.adminScopes user));
      ("role", JStr (DemoUser.role user));
      ("groups", JArr (Group.toJS <$> DemoUser.groups user)) ]
    (JWT_SECRET s) jwt.ONE_DAY now.

Definition verifySessionJWT (s : Server) (now : Z) (token : string)
  : Completion (option Claims.t) :=
  tryCatch
    (decoded ← jwt.verify hmac decodeJws token (JWT_SECRET s) now;
     userId ← getProp decoded "userId";
     email ← getProp decoded "email";
     adminScopes ← getProp decoded "adminScopes";
     role ← getProp decoded "role";
     groups ← getProp decoded "groups";
     Normal (Some {| Claims.id := userId;
                     Claims.email := email;
                     Claims.adminScopes := nullish adminScopes (JArr []);
                     Claims.role := role;
                     Claims.groups := groups |}))
    (fun _ => Normal None).

Definition authenticateUser (s : Server) (email password : string)
  : option DemoUser.t :=
  match List.find (fun u => String.eqb (User.email u) email) (users s) with
  | None => None
  | Some user =>
      if negb (compareSync password (User.password user)) then None
      else Some {| DemoUser.id := User.id user;
                   DemoUser.email := User.email user;
                   DemoUser.adminScopes := User.adminScopes user;
                   DemoUser.role := User.role user;
                   DemoUser.groups := User.groups user |}
  end.

(** [email === u.email] for an [email] that need not be a string. *)
Definition strictEqString (a : string) (v : JValue) : bool :=
  match v with
  | JStr b => String.eqb a b
  | _ => false
  end.

(** [authenticateUser] as the login route reaches it, with arguments that
    the route's cast has not made strings: no record's email is [===] to a
    value that is not a string, and [bcrypt.compareSync] throws on a
    password that is not a string. *)
Definition authenticateUser_any (s : Server) (email password : JValue)
  : Completion (option DemoUser.t) :=
  match List.find (fun u => strictEqString (User.email u) email) (users s) with
  | None => Normal None
  | Some user =>
      match password with
      | JStr password =>
          if negb (compareSync password (User.password user)) then Normal None
          else Normal (Some {| DemoUser.id := User.id user;
                               DemoUser.email := User.email user;
                               DemoUser.adminScopes := User.adminScopes user;
                               DemoUser.role := User.role user;
                               DemoUser.groups := User.groups user |})
      | _ => Throw (Error "Illegal arguments")
      end
  end.

Definition getDemoUsers (s : Server) : list DemoUser.t :=
  List.map (fun user =>
              {| DemoUser.id := User.id user;
                 DemoUser.email := User.email user;
                 DemoUser.adminScopes := User.adminScopes user;
                 DemoUser.role := User.role user;
                 DemoUser.groups := User.groups user |})
           (users s).

(** ** Requests and replies *)

(** What [request.unsignCookie] returns. *)
Record UnsignResult : Type := {
  valid : bool;
  renew : bool;
  value : option string
}.

(** [body] is whatever the content-type parser left there: [undefined]
    when the request had no body, else any value; the cast in the login
    route checks nothing.  [cookies] and [signedCookies] are absent when
    nothing decorated the request with them, [unsignCookie] likewise;
    [user] is the member [requireAuth] adds. *)
Record FastifyRequest : Type := {
  body : JValue;
  cookies : option (gmap string string);
  signedCookies : option (gmap string string);
  unsignCookie : option (string -> UnsignResult);
  user : option Claims.t
}.

(** The options [server.ts] passes to [reply.setCookie].  [maxAge] is the
    number handed to @fastify/cookie, which writes it, in seconds, into
    the [Max-Age] attribute. *)
Record CookieOptions : Type := {
  httpOnly : bool;
  secure : bool;
  sameSite : string;
  maxAge : Z
}.

Inductive CookieOp : Type :=
| SetCookie (name value : string) (options : CookieOptions)
| ClearCookie (name : string).

Record FastifyReply : Type := {
  statusCode : Z;
  cookieOps : list CookieOp;
  sent : option JValue
}.

Definition freshReply : FastifyReply :=
  {| statusCode := 200; cookieOps := []; sent := None |}.

(** [request.cookies?.session] and friends *)
Definition session (jar : option (gmap string string)) : option string :=
  jar ≫= (fun m => m !! "session").

Definition getCurrentUser (s : Server) (now : Z) (request : FastifyRequest)
  : Completion (option Claims.t) :=
  let token := session (signedCookies request) in
  let token :=
    if negb (truthy token) && truthy (session (cookies request)) then
      match session (cookies request) with
      | Some cookieValue =>
          match (fun unsign => unsign cookieValue) <$> unsignCookie request with
          | Some unsignResult =>
              if valid unsignResult then value unsignResult else token
          | None => token
          end
      | None => token
      end
    else token in
  match token with
  | Some token =>
      if String.eqb token "" then Normal None
      else verifySessionJWT s now token
  | None => Normal None
  end.

(** The earlier revision of [auth.ts] kept in the same file (its lines
    52-64 and 82-89): no [adminScopes], and the cookie is read as it comes. *)
Record Legacy_Claims : Type := {
  legacy_id : JValue;
  legacy_email : JValue;
  legacy_role : JValue;
  legacy_groups : JValue
}.

Definition Legacy_verifySessionJWT (s : Server) (now : Z) (token : string)
  : Completion (option Legacy_Claims) :=
  tryCatch
    (decoded ← jwt.verify hmac decodeJws token (JWT_SECRET s) now;
     userId ← getProp decoded "userId";
     email ← getProp decoded "email";
     role ← getProp decoded "role";
     groups ← getProp decoded "groups";
     Normal (Some {| legacy_id := userId; legacy_email := email;
                     legacy_role := role; legacy_groups := groups |}))
    (fun _ => Normal None).

Definition Legacy_getCurrentUser (s : Server) (now : Z) (request : FastifyRequest)
  : Completion (option Legacy_Claims) :=
  match session (cookies request) with
  | Some token =>
      if String.eqb token "" then Normal None
      else Legacy_verifySessionJWT s now token
  | None => Normal None
  end.

(** ** Handlers: state passing over the server, the request and the reply *)

Record Ctx : Type := {
  server : Server;
  clock : Z;
  request : FastifyRequest;
  reply : FastifyReply
}.

Definition App (A : Type) : Type := Ctx -> Completion A * Ctx.

Definition ret {A} (a : A) : App A := fun c => (Normal a, c).
Definition bind {A B} (m : App A) (k : A -> App B) : App B := fun c =>
  match m c with
  | (Normal a, c') => k a c'
  | (Throw e, c') => (Throw e, c')
  end.
Definition lift {A} (m : Completion A) : App A := fun c => (m, c).
Definition ask : App Ctx := fun c => (Normal c, c).
Definition setReply (r : FastifyReply) : App unit := fun c =>
  (Normal tt, {| server := server c; clock := clock c;
                 request := request c; reply := r |}).
Definition setRequest (r : FastifyRequest) : App unit := fun c =>
  (Normal tt, {| server := server c; clock := clock c;
                 request := r; reply := reply c |}).

Notation "x <- m ;; k" := (bind m (fun x => k))
  (at level 100, m at next level, right associativity).
Notation "m ;; k" := (bind m (fun _ => k))
  (at level 100, right associativity).

(** What a handler hands back: the reply itself (after [send]) or a
    payload for Fastify to send. *)
Inductive Returned : Type :=
| TheReply
| Payload (v : JValue).

Definition status (code : Z) : App unit :=
  c <- ask ;;
  setReply {| statusCode := code; cookieOps := cookieOps (reply c);
              sent := sent (reply c) |}.

Definition send (v : JValue) : App Returned :=
  c <- ask ;;
  setReply {| statusCode := statusCode (reply c);
              cookieOps := cookieOps (reply c); sent := Some v |} ;;
  ret TheReply.

Definition setCookie (name value : string) (options : CookieOptions) : App unit :=
  c <- ask ;;
  setReply {| statusCode := statusCode (reply c);
              cookieOps := cookieOps (reply c) ++ [SetCookie name value options];
              sent := sent (reply c) |}.

Definition clearCookie (name : string) : App unit :=
  c <- ask ;;
  setReply {| statusCode := statusCode (reply c);
              cookieOps := cookieOps (reply c) ++ [ClearCookie name];
              sent := sent (reply c) |}.

Definition requireAuth : App unit :=
  c <- ask ;;
  user <- lift (getCurrentUser (server c) (clock c) (request c)) ;;
  match user with
  | None =>
      status 401 ;;
      send (JObj [("error", JStr "Authentication required")]) ;;
      ret tt
  | Some user =>
      setRequest {| body := body (request c); cookies := cookies (request c);
                    signedCookies := signedCookies (request c);
                    unsignCookie := unsignCookie (request c);
                    user := Some user |}
  end.

(** ** The routes of [server.ts] *)

Definition DemoUser_toJS (u : DemoUser.t) : JValue :=
  JObj [ ("id", JStr (DemoUser.id u));
         ("email", JStr (DemoUser.email u));
         ("adminScopes", JArr (JStr <$> DemoUser.adminScopes u));
         ("role", JStr (DemoUser.role u));
         ("groups", JArr (Group.toJS <$> DemoUser.groups u)) ].

Definition Claims_toJS (u : Claims.t) : JValue :=
  JObj [ ("id", Claims.id u);
         ("email", Claims.email u);
         ("adminScopes", Claims.adminScopes u);
         ("role", Claims.role u);
         ("groups", Claims.groups u) ].

(** [process.env.NODE_ENV === "production"] *)
Definition isProduction (e : ProcessEnv) : bool :=
  match env_NODE_ENV e with
  | Some v => String.eqb v "production"
  | None => false
  end.

(** [fastify.post("/api/auth/login", ...)] *)
Definition login : App Returned :=
  c <- ask ;;
  email <- lift (getProp (body (request c)) "email") ;;
  password <- lift (getProp (body (request c)) "password") ;;
  if negb (toBoolean email) || negb (toBoolean password) then
    status 400 ;;
    send (JObj [("error", JStr "Email and password required")])
  else
    user <- lift (authenticateUser_any (server c) email password) ;;
    match user with
    | None =>
        status 401 ;;
        send (JObj [("error", JStr "Invalid credentials")])
    | Some user =>
        sessionToken <- lift (createSessionJWT (server c) (clock c) user) ;;
        setCookie "session" sessionToken
          {| httpOnly := true;
             secure := isProduction (env (server c));
             sameSite := "lax";
             maxAge := 24 * 60 * 60 * 1000 |} ;;
        ret (Payload
               (JObj [ ("success", JBool true);
                       ("user",
                        JObj [ ("id", JStr (DemoUser.id user));
                               ("email", JStr (DemoUser.email user));
                               ("role", JStr (DemoUser.role user));
                               ("groups",
                                JArr (Group.toJS <$> DemoUser.groups user)) ]) ]))
    end.

(** [fastify.post("/api/auth/logout", ...)] *)
Definition logout : App Returned :=
  clearCookie "session" ;;
  ret (Payload (JObj [("success", JBool true)])).

(** [fastify.get("/api/auth/me", ...)] *)
Definition me : App Returned :=
  c <- ask ;;
  user <- lift (getCurrentUser (server c) (clock c) (request c)) ;;
  match user with
  | None =>
      status 401 ;;
      send (JObj [("error", JStr "Not authenticated")])
  | Some user => ret (Payload (JObj [("user", Claims_toJS user)]))
  end.

(** [fastify.get("/api/demo/users", ...)] *)
Definition demoUsers : App Returned :=
  c <- ask ;;
  ret (Payload (JObj [("users", JArr (DemoUser_toJS <$> getDemoUsers (server c)))])).

(** The handler of [fastify.get("/api/demo/protected", ...)]. *)
Definition protected : App Returned :=
  c <- ask ;;
  ret (Payload
         (JObj [ ("message", JStr "This is a protected route!");
                 ("user", from_option Claims_toJS JUndefined (user (request c)));
                 ("timestamp", JStr (toISOString (clock c))) ])).

Inductive Route : Type :=
| PostLogin
| PostLogout
| GetMe
| GetDemoUsers
| GetProtected.

Definition preHandler (r : Route) : App unit :=
  match r with
  | GetProtected => requireAuth
  | _ => ret tt
  end.

Definition handler (r : Route) : App Returned :=
  match r with
  | PostLogin => login
  | PostLogout => logout
  | GetMe => me
  | GetDemoUsers => demoUsers
  | GetProtected => protected
  end.

(** A hook that sent the reply ends the request; otherwise the handler
    runs. *)
Definition lifecycle (r : Route) : App Returned :=
  preHandler r ;;
  c <- ask ;;
  match sent (reply c) with
  | Some _ => ret TheReply
  | None => handler r
  end.

Record Response : Type := {
  res_status : Z;
  res_cookies : list CookieOp;
  res_body : JValue
}.

(** What goes on the wire: the body that was sent, else the returned
    payload; a throw reaches [setErrorHandler]. *)
Definition respond (out : Completion Returned * Ctx) : Response :=
  let (result, c) := out in
  match result with
  | Throw _ =>
      {| res_status := 500; res_cookies := cookieOps (reply c);
         res_body := JObj [("error", JStr "Internal server error")] |}
  | Normal returned =>
      {| res_status := statusCode (reply c);
         res_cookies := cookieOps (reply c);
         res_body :=
           match sent (reply c), returned with
           | Some b, _ => b
           | None, Payload v => v
           | None, TheReply => JUndefined
           end |}
  end.

(** One request against the server: the response and the server
    afterwards. *)
Definition serve (r : Route) (s : Server) (now : Z) (req : FastifyRequest)
  : Response * Server :=
  let out := lifecycle r {| server := s; clock := now; request := req;
                            reply := freshReply |} in
  (respond out, server (snd out)).

End Demo.

(** ** The rest of the two files *)

Module LegacyDemoUser.
(** [interface DemoUser] of the earlier revision (its lines 30-35). *)
Record t : Type := mk {
  id : string;
  email : string;
  role : string;
  groups : list Group.t
}.
End LegacyDemoUser.

Section Demo_rest.
Variable hmac : string -> string -> JValue -> JValue -> string.
Variable decodeJws : string -> option jwt.Jws.
Variable encodeJws : jwt.Jws -> string.

(** [createSessionJWT] of the earlier revision (its lines 38-49). *)
Definition Legacy_createSessionJWT (s : Server) (now : Z) (user : LegacyDemoUser.t)
  : Completion string :=
  jwt.sign hmac encodeJws
    [ ("userId", JStr (LegacyDemoUser.id user));
      ("email", JStr (LegacyDemoUser.email user));
      ("role", JStr (LegacyDemoUser.role user));
      ("groups", JArr (Group.toJS <$> LegacyDemoUser.groups user)) ]
    (JWT_SECRET s) jwt.ONE_DAY now.

(** The [authenticateUser] callback [server.ts] hands to [configureVortex]:
    the current user in the shape the SDK expects, or [null]. *)
Definition vortexAuthenticateUser (s : Server) (now : Z) (request : FastifyRequest)
  : Completion (option JValue) :=
  user ← getCurrentUser hmac decodeJws s now request;
  match user with
  | None => Normal None
  | Some user =>
      Normal (Some (JObj [ ("userId", Claims.id user);
                           ("identifiers",
                            JArr [JObj [("type", JStr "email");
                                        ("value", Claims.email user)]]);
                           ("groups", Claims.groups user);
                           ("role", Claims.role user) ]))
  end.

End Demo_rest.

(** A request brings [token] to [getCurrentUser]: as [signedCookies.session],
    or, failing a non-empty one, as the value [unsignCookie] vouches for in
    the [session] cookie. *)
Definition carriesSession (request : FastifyRequest) (token : string) : Prop :=
  session (signedCookies request) = Some token \/
  (truthy (session (signedCookies request)) = false /\
   exists v f, session (cookies request) = Some v /\ v <> "" /\
               unsignCookie request = Some f /\ valid (f v) = true /\
               value (f v) = Some token).

(** ** Stand-ins for the three libraries

    Concrete, executable instances of the parameters, used to run the
    development on examples: a salt-free "hash", a MAC that spells out what
    it signs, and a compact serialisation through stdpp's [Countable]. *)

Module Toy.

Definition hashSync (s : string) (rounds : Z) : string := "$2a$" +:+ s.

Definition compareSync (s hash : string) : bool :=
  String.eqb hash (hashSync s 10).

Definition toISOString (now : Z) : string := "1970-01-01T00:00:00.000Z".

Definition Leaf : Type := bool + Z + string.

Fixpoint tree_of (v : JValue) : gen_tree Leaf :=
  match v with
  | JUndefined => GenNode 0 []
  | JNull => GenNode 1 []
  | JBool b => GenLeaf (inl (inl b))
  | JNum n => GenLeaf (inl (inr n))
  | JStr s => GenLeaf (inr s)
  | JArr items => GenNode 2 (List.map tree_of items)
  | JObj props =>
      GenNode 3 (List.map (fun kv => GenNode 4 [GenLeaf (inr (fst kv)); tree_of (snd kv)])
                          props)
  end.

Fixpoint of_tree (t : gen_tree Leaf) : JValue :=
  match t with
  | GenLeaf (inl (inl b)) => JBool b
  | GenLeaf (inl (inr n)) => JNum n
  | GenLeaf (inr s) => JStr s
  | GenNode 0%nat _ => JUndefined
  | GenNode 1%nat _ => JNull
  | GenNode 2%nat ts => JArr (List.map of_tree ts)
  | GenNode _ ts =>
      JObj (List.map (fun t =>
                        match t with
                        | GenNode _ [GenLeaf (inr k); t'] => (k, of_tree t')
                        | _ => ("", JUndefined)
                        end) ts)
  end.

Fixpoint bits_of (p : positive) : string :=
  match p with
  | xH => ""
  | xO p => String "0"%char (bits_of p)
  | xI p => String "1"%char (bits_of p)
  end.

Fixpoint of_bits (s : string) : option positive :=
  match s with
  | EmptyString => Some xH
  | String c rest =>
      if Ascii.eqb c "0"%char then xO <$> of_bits rest
      else if Ascii.eqb c "1"%char then xI <$> of_bits rest
      else None
  end.

Definition hmac (alg key : string) (h p : JValue) : string :=
  String "#"%char (alg +:+ ":" +:+ key +:+ ":" +:+ bits_of (encode (tree_of h, tree_of p))).

Definition encodeJws (j : jwt.Jws) : string :=
  String "J"%char (bits_of (encode (tree_of (jwt.header j), tree_of (jwt.payload j),
                               jwt.signature j))).

Definition decodeJws (s : string) : option jwt.Jws :=
  match s with
  | String "J"%char rest =>
      p ← of_bits rest;
      '(h, p, sig) ← decode (A := gen_tree Leaf * gen_tree Leaf * string) p;
      Some (jwt.mkJws (of_tree h) (of_tree p) sig)
  | _ => None
  end.

(** The server as it stands after module load, under a given environment. *)
Definition boot (e : ProcessEnv) : Server := load hashSync e.

Definition dev : ProcessEnv := {| env_JWT_SECRET := None; env_NODE_ENV := None |}.

Definition admin : DemoUser.t :=
  DemoUser.mk "user-1" "admin@example.com" ["autojoin"] "admin"
    [ Group.mk "team" (Some "team-1") None "Engineering";
      Group.mk "organization" (Some "org-1") None "Acme Corp" ].

(** A request as a browser or [curl] sends it: @fastify/cookie has parsed
    the [Cookie] header into [cookies], there is no [signedCookies], and
    [unsignCookie] rejects whatever does not end in the cookie signature;
    none of the values below does. *)
Definition bare (b : JValue) (jar : gmap string string) : FastifyRequest :=
  {| body := b; cookies := Some jar; signedCookies := None;
     unsignCookie := Some (fun _ => {| valid := false; renew := false; value := None |});
     user := None |}.

(** The same request when the cookie arrived signed and @fastify/cookie
    vouches for it: [unsignCookie] hands back what the signature covers. *)
Definition vouched (b : JValue) (jar : gmap string string) : FastifyRequest :=
  {| body := b; cookies := Some jar; signedCookies := None;
     unsignCookie := Some (fun v => {| valid := true; renew := false; value := Some v |});
     user := None |}.

Definition noBody : JValue := JUndefined.

Definition credentials (email password : string) : JValue :=
  JObj [("email", JStr email); ("password", JStr password)].

Definition HS256 : JValue := JObj [("alg", JStr "HS256"); ("typ", JStr "JWT")].

Definition signed (secret : string) (p : JValue) : string :=
  encodeJws (jwt.mkJws HS256 p (hmac "HS256" secret HS256 p)).

(** The token a login of the admin at clock 0 puts in the cookie. *)
Definition adminToken : string :=
  signed "demo-secret-key"
    (JObj [ ("userId", JStr "user-1");
            ("email", JStr "admin@example.com");
            ("adminScopes", JArr [JStr "autojoin"]);
            ("role", JStr "admin");
            ("groups",
             JArr [ JObj [("type", JStr "team"); ("id", JStr "team-1");
                          ("name", JStr "Engineering")];
                    JObj [("type", JStr "organization"); ("id", JStr "org-1");
                          ("name", JStr "Acme Corp")] ]);
            ("iat", JNum 0);
            ("exp", JNum 86400) ]).

(** A token under the same secret that did not come from
    [createSessionJWT]: its [adminScopes] is a string. *)
Definition foreignToken : string :=
  signed "demo-secret-key"
    (JObj [ ("userId", JStr "user-2");
            ("adminScopes", JStr "all");
            ("exp", JNum 86400) ]).

(** A token from before [adminScopes] existed. *)
Definition legacyToken : string :=
  signed "demo-secret-key"
    (JObj [ ("userId", JStr "user-2");
            ("email", JStr "user@example.com");
            ("role", JStr "user");
            ("groups", JArr []);
            ("iat", JNum 0);
            ("exp", JNum 86400) ]).

Abbreviation verifySession := (verifySessionJWT hmac decodeJws).
Abbreviation createSession := (createSessionJWT hmac encodeJws).
Abbreviation currentUser := (getCurrentUser hmac decodeJws).
Abbreviation run := (serve compareSync hmac decodeJws encodeJws toISOString).

End Toy.

(** A store in which one email occurs twice, with different passwords. *)
Definition Toy_twins : Server :=
  {| env := Toy.dev;
     users :=
       [ User.mk "a" "twin@example.com" (Toy.hashSync "first" 10) [] "user" [];
         User.mk "b" "twin@example.com" (Toy.hashSync "second" 10) ["autojoin"] "admin" [] ];
     JWT_SECRET := "demo-secret-key" |}.

(** The same secret, no user left in the store. *)
Definition Toy_emptied : Server :=
  {| env := Toy.dev; users := []; JWT_SECRET := "demo-secret-key" |}.

(** Another secret in the environment. *)
Definition Toy_rotated : ProcessEnv :=
  {| env_JWT_SECRET := Some "rotated-secret"; env_NODE_ENV := None |}.

Definition Toy_legacyAdmin : LegacyDemoUser.t :=
  LegacyDemoUser.mk "user-1" "admin@example.com" "admin"
    [ Group.mk "team" (Some "team-1") None "Engineering" ].

(** * Facts *)

(** ** Induction on values, through arrays and objects *)

Section JValue_induction.
Variable P : JValue -> Prop.
Hypothesis P_undefined : P JUndefined.
Hypothesis P_null : P JNull.
Hypothesis P_bool : forall b, P (JBool b).
Hypothesis P_num : forall n, P (JNum n).
Hypothesis P_str : forall s, P (JStr s).
Hypothesis P_arr : forall items, Forall P items -> P (JArr items).
Hypothesis P_obj : forall props, Forall (fun kv => P (snd kv)) props -> P (JObj props).

Fixpoint JValue_nested_ind (v : JValue) : P v :=
  match v with
  | JUndefined => P_undefined
  | JNull => P_null
  | JBool b => P_bool b
  | JNum n => P_num n
  | JStr s => P_str s
  | JArr items =>
      P_arr items
        ((fix all (l : list JValue) : Forall P l :=
            match l with
            | [] => Forall_nil P
            | x :: r => Forall_cons P x r (JValue_nested_ind x) (all r)
            end) items)
  | JObj props =>
      P_obj props
        ((fix all (l : list (string * JValue)) : Forall (fun kv => P (snd kv)) l :=
            match l with
            | [] => Forall_nil _
            | kv :: r => Forall_cons _ kv r (JValue_nested_ind (snd kv)) (all r)
            end) props)
  end.
End JValue_induction.

(** ** The stand-ins satisfy what the libraries promise *)

Lemma Toy_of_tree_tree_of (v : JValue) : Toy.of_tree (Toy.tree_of v) = v.
Proof.
  induction v as [ | | b | n | s | items IH | props IH ] using JValue_nested_ind;
    simpl; try reflexivity.
  - f_equal. induction IH as [ | x r Hx _ IHr ]; simpl; [ reflexivity | ].
    now rewrite Hx, IHr.
  - f_equal. induction IH as [ | [k x] r Hx _ IHr ]; simpl; [ reflexivity | ].
    simpl in Hx. now rewrite Hx, IHr.
Qed.

Lemma Toy_of_bits_bits_of (p : positive) : Toy.of_bits (Toy.bits_of p) = Some p.
Proof.
  induction p as [ p IH | p IH | ]; simpl; [ | | reflexivity ]; now rewrite IH.
Qed.

Lemma Toy_decode_encode (j : jwt.Jws) : Toy.decodeJws (Toy.encodeJws j) = Some j.
Proof.
  destruct j as [h p sig]. unfold Toy.decodeJws, Toy.encodeJws. simpl.
  rewrite Toy_of_bits_bits_of. simpl. rewrite decode_encode. simpl.
  now rewrite !Toy_of_tree_tree_of.
Qed.

Lemma Toy_decode_empty : Toy.decodeJws "" = None.
Proof. reflexivity. Qed.

Lemma Toy_hmac_nonempty alg key h p : Toy.hmac alg key h p <> "".
Proof. unfold Toy.hmac. discriminate. Qed.

Lemma Toy_compare_hash (s : string) : Toy.compareSync s (Toy.hashSync s 10) = true.
Proof. unfold Toy.compareSync. apply String.eqb_refl. Qed.

(** ** jsonwebtoken: what [verify] accepts, what [sign] produces *)

Section jwt_facts.
Variable hmac : string -> string -> JValue -> JValue -> string.
Variable decodeJws : string -> option jwt.Jws.
Variable encodeJws : jwt.Jws -> string.

Lemma bind_Normal {A B} (m : Completion A) (k : A -> Completion B) (b : B) :
  (m ≫= k) = Normal b -> exists a, m = Normal a /\ k a = Normal b.
Proof. destruct m as [a | e]; simpl; [ eauto | discriminate ]. Qed.

Lemma bind_Throw {A B} (m : Completion A) (k : A -> Completion B) (e : Exn) :
  m = Throw e -> (m ≫= k) = Throw e.
Proof. now intros ->. Qed.

(** Everything an accepted token went through. *)
Lemma verify_Normal token secret now p :
  jwt.verify hmac decodeJws token secret now = Normal p ->
  exists j a,
    decodeJws token = Some j /\ p = jwt.payload j /\
    getProp (jwt.header j) "alg" = Normal (JStr a) /\
    jwt.signature j = hmac a secret (jwt.header j) (jwt.payload j) /\
    jwt.checkNbf (jwt.payload j) now = Normal tt /\
    jwt.checkExp (jwt.payload j) now = Normal tt.
Proof.
  unfold jwt.verify.
  destruct (String.eqb token ""); [ discriminate | ].
  destruct (decodeJws token) as [j | ]; [ | discriminate ].
  destruct (String.eqb (jwt.signature j) ""); [ discriminate | ].
  destruct (String.eqb secret ""); [ discriminate | ].
  intros H. apply bind_Normal in H as (alg & Halg & H).
  destruct alg as [ | | | | a | | ]; try discriminate.
  destruct (negb (existsb (String.eqb a) jwt.HMAC_ALGS)); [ discriminate | ].
  destruct (String.eqb_spec (jwt.signature j)
              (hmac a secret (jwt.header j) (jwt.payload j))) as [Hsig | ];
    simpl in H; [ | discriminate ].
  apply bind_Normal in H as ([] & Hnbf & H).
  apply bind_Normal in H as ([] & Hexp & H).
  injection H as Hp. subst p. exists j, a. repeat split; assumption.
Qed.

Lemma verify_malformed token secret now :
  decodeJws token = None ->
  exists e, jwt.verify hmac decodeJws token secret now = Throw e.
Proof.
  intros H. unfold jwt.verify. rewrite H.
  destruct (String.eqb token ""); eauto.
Qed.

Lemma verify_bad_signature token secret now j :
  decodeJws token = Some j ->
  (forall a, getProp (jwt.header j) "alg" = Normal (JStr a) ->
             jwt.signature j <> hmac a secret (jwt.header j) (jwt.payload j)) ->
  exists e, jwt.verify hmac decodeJws token secret now = Throw e.
Proof.
  intros Hj Hsig.
  destruct (jwt.verify hmac decodeJws token secret now) as [p | e] eqn:E; [ | eauto ].
  apply verify_Normal in E as (j' & a & Hj' & _ & Halg & Hmac & _).
  rewrite Hj in Hj'. injection Hj' as Hjj. subst j'. now destruct (Hsig a Halg).
Qed.

Lemma verify_expired token secret now j e :
  decodeJws token = Some j ->
  getProp (jwt.payload j) "exp" = Normal (JNum e) ->
  e <= now ->
  exists x, jwt.verify hmac decodeJws token secret now = Throw x.
Proof.
  intros Hj Hexp Hle.
  destruct (jwt.verify hmac decodeJws token secret now) as [p | x] eqn:E; [ | eauto ].
  apply verify_Normal in E as (j' & a & Hj' & _ & _ & _ & _ & Hchk).
  rewrite Hj in Hj'. injection Hj' as Hjj. subst j'.
  unfold jwt.checkExp in Hchk. rewrite Hexp in Hchk. simpl in Hchk.
  destruct (Z.leb_spec e now); [ discriminate | lia ].
Qed.

Hypothesis decode_encode : forall j, decodeJws (encodeJws j) = Some j.
Hypothesis decode_empty : decodeJws "" = None.
Hypothesis hmac_nonempty : forall alg key h p, hmac alg key h p <> "".

Lemma encode_nonempty j : encodeJws j <> "".
Proof.
  intros H. pose proof (decode_encode j) as E. rewrite H, decode_empty in E.
  discriminate.
Qed.

Lemma eqb_false_of_neq (a b : string) : a <> b -> String.eqb a b = false.
Proof. intros H. now apply String.eqb_neq. Qed.

(** A token from [sign] verifies, under the same secret, at any moment
    before its [exp], to the claims with [iat] and [exp] added. *)
Lemma sign_verify claims secret t0 t1 :
  secret <> "" ->
  assoc "nbf" claims = None ->
  assoc "exp" claims = None ->
  t1 < t0 + jwt.ONE_DAY ->
  exists token,
    jwt.sign hmac encodeJws claims secret jwt.ONE_DAY t0 = Normal token /\
    jwt.verify hmac decodeJws token secret t1
    = Normal (JObj (claims ++ [("iat", JNum t0); ("exp", JNum (t0 + jwt.ONE_DAY))])).
Proof.
  intros Hsecret Hnbf Hexp Hlt. unfold jwt.sign.
  rewrite (eqb_false_of_neq _ _ Hsecret).
  eexists. split; [ reflexivity | ].
  unfold jwt.verify.
  rewrite (eqb_false_of_neq _ _ (encode_nonempty _)), decode_encode. simpl.
  rewrite (eqb_false_of_neq _ _ (hmac_nonempty _ _ _ _)).
  rewrite (eqb_false_of_neq _ _ Hsecret), String.eqb_refl. simpl.
  assert (Hn : assoc "nbf" (claims ++ [("iat", JNum t0); ("exp", JNum (t0 + jwt.ONE_DAY))]) = None).
  { clear -Hnbf. induction claims as [ | [k v] r IH ]; [ reflexivity | ].
    cbn [assoc app] in *. destruct (String.eqb "nbf" k); [ discriminate Hnbf | auto ]. }
  assert (He : assoc "exp" (claims ++ [("iat", JNum t0); ("exp", JNum (t0 + jwt.ONE_DAY))])
               = Some (JNum (t0 + jwt.ONE_DAY))).
  { clear -Hexp. induction claims as [ | [k v] r IH ]; [ reflexivity | ].
    cbn [assoc app] in *. destruct (String.eqb "exp" k); [ discriminate Hexp | auto ]. }
  unfold jwt.checkNbf, jwt.checkExp. simpl. rewrite Hn, He. simpl.
  destruct (Z.leb_spec (t0 + jwt.ONE_DAY) t1); [ lia | reflexivity ].
Qed.

End jwt_facts.

(** ** The credential store *)

Section store_facts.
Variable hashSync : string -> Z -> string.
Variable compareSync : string -> string -> bool.

Lemma find_email_unique (us : list User.t) (email : string) (r : User.t) :
  List.NoDup (List.map User.email us) ->
  In r us -> User.email r = email ->
  List.find (fun u => String.eqb (User.email u) email) us = Some r.
Proof.
  intros Hnd Hin Hr. induction us as [ | u us IH ]; [ destruct Hin | ].
  cbn [List.find]. cbn [List.map] in Hnd.
  apply List.NoDup_cons_iff in Hnd as [Hu Hnd].
  destruct Hin as [-> | Hin].
  - now rewrite Hr, String.eqb_refl.
  - destruct (String.eqb_spec (User.email u) email) as [E | _]; [ | now apply IH ].
    exfalso. apply Hu. rewrite E, <- Hr. now apply in_map.
Qed.

(** On any store without two records of one email. *)
Lemma authenticateUser_Some (s : Server) (email password : string) (u : DemoUser.t) :
  List.NoDup (List.map User.email (users s)) ->
  authenticateUser compareSync s email password = Some u <->
  exists r, In r (users s) /\ User.email r = email /\
            compareSync password (User.password r) = true /\
            u = publicFields r.
Proof.
  intros Hnd. unfold authenticateUser. split.
  - destruct (List.find _ (users s)) as [r | ] eqn:F; [ | discriminate ].
    apply find_some in F as [Hin He]. apply String.eqb_eq in He.
    destruct (compareSync password (User.password r)) eqn:C; simpl; [ | discriminate ].
    intros [= <-]. exists r. auto.
  - intros (r & Hin & He & C & ->).
    rewrite (find_email_unique _ _ _ Hnd Hin He), C. reflexivity.
Qed.

Lemma load_NoDup (e : ProcessEnv) :
  List.NoDup (List.map User.email (users (load hashSync e))).
Proof.
  simpl. repeat constructor; simpl; intuition discriminate.
Qed.

(** C1. [authenticateUser(email, password)] returns a user exactly when the
    store holds a record whose [email] is the given string and whose stored
    hash [compareSync] accepts for the password, and then it returns that
    record's public members; an unknown email and a wrong password both
    give [None]. *)
Theorem authenticateUser_iff (e : ProcessEnv) (email password : string) :
  let s := load hashSync e in
  (forall u, authenticateUser compareSync s email password = Some u <->
             exists r, In r (users s) /\ User.email r = email /\
                       compareSync password (User.password r) = true /\
                       u = publicFields r) /\
  ((forall r, In r (users s) -> User.email r <> email) ->
   authenticateUser compareSync s email password = None) /\
  (forall r, In r (users s) -> User.email r = email ->
             compareSync password (User.password r) = false ->
             authenticateUser compareSync s email password = None).
Proof.
  intros s. pose proof (load_NoDup e) as Hnd. fold s in Hnd.
  split; [ | split ].
  - intros u. now apply authenticateUser_Some.
  - intros Hno.
    destruct (authenticateUser compareSync s email password) as [u | ] eqn:A;
      [ | reflexivity ].
    apply authenticateUser_Some in A as (r & Hin & He & _); [ | assumption ].
    now destruct (Hno r Hin).
  - intros r Hin He C.
    destruct (authenticateUser compareSync s email password) as [u | ] eqn:A;
      [ | reflexivity ].
    apply authenticateUser_Some in A as (r' & Hin' & He' & C' & _); [ | assumption ].
    assert (r' = r) as ->; [ | congruence ].
    pose proof (find_email_unique _ _ _ Hnd Hin He) as F.
    pose proof (find_email_unique _ _ _ Hnd Hin' He') as F'. congruence.
Qed.

(** C9. [getDemoUsers] returns one record per stored user, in store order,
    each carrying the stored [id], [email], [adminScopes], [role] and
    [groups]; as an object it has no [password] property. *)
Theorem getDemoUsers_public (s : Server) :
  length (getDemoUsers s) = length (users s) /\
  (forall (i : nat) (r : User.t), users s !! i = Some r ->
     exists d, getDemoUsers s !! i = Some d /\
               DemoUser.id d = User.id r /\
               DemoUser.email d = User.email r /\
               DemoUser.role d = User.role r /\
               DemoUser.groups d = User.groups r /\
               DemoUser.adminScopes d = User.adminScopes r) /\
  (forall (i : nat) (d : DemoUser.t), getDemoUsers s !! i = Some d ->
     exists r, users s !! i = Some r /\ d = publicFields r) /\
  (forall d, In d (getDemoUsers s) ->
     getProp (DemoUser_toJS d) "password" = Normal JUndefined).
Proof.
  unfold getDemoUsers. repeat split.
  - apply length_map.
  - intros i r Hr. eexists. split.
    + change (List.map ?f ?l) with (f <$> l). rewrite list_lookup_fmap, Hr. reflexivity.
    + repeat split.
  - intros i d Hd. change (List.map ?f ?l) with (f <$> l) in Hd.
    rewrite list_lookup_fmap in Hd.
    destruct (users s !! i) as [r | ]; [ | discriminate ].
    injection Hd as Hd. subst d. exists r. split; reflexivity.
Qed.

End store_facts.

(** ** The session codec *)

Lemma or_else_nonempty (a : option string) (b : string) : b <> "" -> or_else a b <> "".
Proof.
  intros Hb. unfold or_else. destruct a as [x | ]; [ | assumption ].
  destruct (String.eqb_spec x ""); assumption.
Qed.

Lemma Group_toJS_inj (g g' : Group.t) : Group.toJS g = Group.toJS g' -> g = g'.
Proof.
  destruct g as [t [i | ] [gi | ] n], g' as [t' [i' | ] [gi' | ] n'];
    unfold Group.toJS; cbn; intros H; injection H as H; congruence.
Qed.

Lemma map_inj {A B} (f : A -> B) (l l' : list A) :
  (forall a a', f a = f a' -> a = a') -> f <$> l = f <$> l' -> l = l'.
Proof.
  intros Hf. revert l'. induction l as [ | a l IH ]; intros [ | a' l' ] H;
    try discriminate; [ reflexivity | ].
  cbn in H. injection H as Ha Hl. f_equal; auto.
Qed.

(** Two users with the same claims are the same user. *)
Lemma Claims_of_user_inj (u u' : DemoUser.t) :
  Claims.of_user u = Claims.of_user u' -> u = u'.
Proof.
  destruct u as [i e a r g], u' as [i' e' a' r' g']. unfold Claims.of_user. cbn.
  intros H. injection H as Hi He Ha Hr Hg.
  apply map_inj in Ha; [ | congruence ].
  apply map_inj in Hg; [ | apply Group_toJS_inj ].
  congruence.
Qed.

Section session_facts.
Variable hashSync : string -> Z -> string.
Variable hmac : string -> string -> JValue -> JValue -> string.
Variable decodeJws : string -> option jwt.Jws.
Variable encodeJws : jwt.Jws -> string.

Abbreviation verifySession := (verifySessionJWT hmac decodeJws).
Abbreviation createSession := (createSessionJWT hmac encodeJws).

Lemma verifySessionJWT_total s now token :
  exists r, verifySession s now token = Normal r.
Proof.
  unfold verifySessionJWT, tryCatch.
  match goal with |- context [match ?b with Normal _ => _ | Throw _ => _ end] =>
    destruct b end; eauto.
Qed.

Lemma verifySessionJWT_throw s now token e :
  jwt.verify hmac decodeJws token (JWT_SECRET s) now = Throw e ->
  verifySession s now token = Normal None.
Proof. unfold verifySessionJWT. now intros ->. Qed.

(** What comes back for an accepted token, member by member. *)
Lemma verifySessionJWT_Some s now token c :
  verifySession s now token = Normal (Some c) ->
  exists decoded userId email adminScopes role groups,
    jwt.verify hmac decodeJws token (JWT_SECRET s) now = Normal decoded /\
    getProp decoded "userId" = Normal userId /\
    getProp decoded "email" = Normal email /\
    getProp decoded "adminScopes" = Normal adminScopes /\
    getProp decoded "role" = Normal role /\
    getProp decoded "groups" = Normal groups /\
    c = Claims.mk userId email (nullish adminScopes (JArr [])) role groups.
Proof.
  unfold verifySessionJWT.
  destruct (jwt.verify hmac decodeJws token (JWT_SECRET s) now) as [decoded | e];
    [ | discriminate ].
  cbn [mbind Completion_bind tryCatch].
  destruct (getProp decoded "userId") as [userId | ] eqn:E0; [ | discriminate ].
  destruct (getProp decoded "email") as [email | ] eqn:E1; [ | discriminate ].
  destruct (getProp decoded "adminScopes") as [adminScopes | ] eqn:E2; [ | discriminate ].
  destruct (getProp decoded "role") as [role | ] eqn:E3; [ | discriminate ].
  destruct (getProp decoded "groups") as [groups | ] eqn:E4; [ | discriminate ].
  cbn. intros H. injection H as H. subst c.
  exists decoded, userId, email, adminScopes, role, groups.
  repeat split; assumption.
Qed.

(** C3. [verifySessionJWT] never throws, and a token that is malformed,
    whose signature is not the MAC of its content under the server's
    secret, or whose [exp] is not after the clock, gives [None]. *)
Theorem verifySessionJWT_absent (s : Server) (now : Z) (token : string) :
  (exists r, verifySession s now token = Normal r) /\
  (decodeJws token = None -> verifySession s now token = Normal None) /\
  (forall j, decodeJws token = Some j ->
     (forall a, getProp (jwt.header j) "alg" = Normal (JStr a) ->
                jwt.signature j <> hmac a (JWT_SECRET s) (jwt.header j) (jwt.payload j)) ->
     verifySession s now token = Normal None) /\
  (forall j e, decodeJws token = Some j ->
     getProp (jwt.payload j) "exp" = Normal (JNum e) -> e <= now ->
     verifySession s now token = Normal None).
Proof.
  split; [ apply verifySessionJWT_total | ]. split; [ | split ].
  - intros H. destruct (verify_malformed hmac decodeJws token (JWT_SECRET s) now H) as [e E].
    now apply verifySessionJWT_throw with e.
  - intros j Hj Hsig.
    destruct (verify_bad_signature hmac decodeJws token (JWT_SECRET s) now j Hj Hsig)
      as [e E].
    now apply verifySessionJWT_throw with e.
  - intros j e Hj Hexp Hle.
    destruct (verify_expired hmac decodeJws token (JWT_SECRET s) now j e Hj Hexp Hle)
      as [x E].
    now apply verifySessionJWT_throw with x.
Qed.

(** A payload swapped under a kept signature, when the MAC tells payloads apart. *)
Lemma verifySessionJWT_tampered (s : Server) (now : Z) (token : string)
    (h p p' : JValue) (a : string) :
  (forall q q', hmac a (JWT_SECRET s) h q = hmac a (JWT_SECRET s) h q' -> q = q') ->
  getProp h "alg" = Normal (JStr a) ->
  p' <> p ->
  decodeJws token = Some (jwt.mkJws h p' (hmac a (JWT_SECRET s) h p)) ->
  verifySession s now token = Normal None.
Proof.
  intros Hinj Halg Hne Hj.
  destruct (verify_bad_signature hmac decodeJws token (JWT_SECRET s) now _ Hj) as [e E].
  - cbn [jwt.header jwt.payload jwt.signature]. intros a' Ha' Hsig.
    rewrite Halg in Ha'. injection Ha' as Ha'. subst a'.
    apply Hne. symmetry. now apply Hinj.
  - now apply verifySessionJWT_throw with e.
Qed.

(** A token signed under another secret, when the MAC tells the secrets apart. *)
Lemma verifySessionJWT_other_secret (s : Server) (now : Z) (token : string)
    (h p : JValue) (a secret' : string) :
  hmac a secret' h p <> hmac a (JWT_SECRET s) h p ->
  getProp h "alg" = Normal (JStr a) ->
  decodeJws token = Some (jwt.mkJws h p (hmac a secret' h p)) ->
  verifySession s now token = Normal None.
Proof.
  intros Hne Halg Hj.
  destruct (verify_bad_signature hmac decodeJws token (JWT_SECRET s) now _ Hj) as [e E].
  - cbn [jwt.header jwt.payload jwt.signature]. intros a' Ha' Hsig.
    rewrite Halg in Ha'. injection Ha' as Ha'. subst a'. now apply Hne.
  - now apply verifySessionJWT_throw with e.
Qed.

(** In the earlier revision the cookie's value went to [verifySessionJWT]
    as it came, whenever there was a cookie. *)
Lemma Legacy_getCurrentUser_cookie (s : Server) (now : Z) (req : FastifyRequest) :
  Legacy_getCurrentUser hmac decodeJws s now req
  = match session (cookies req) with
    | Some token => Legacy_verifySessionJWT hmac decodeJws s now token
    | None => Normal None
    end.
Proof.
  unfold Legacy_getCurrentUser. destruct (session (cookies req)) as [t | ]; [ | reflexivity ].
  destruct (String.eqb_spec t "") as [-> | _]; reflexivity.
Qed.

(** C10, as the code has it.  The [adminScopes] of an accepted token is
    never [undefined] or [null]: it is the empty array when the payload has
    no such entry (or a [null] one), and the payload's entry, unchanged,
    otherwise; so it is an array whenever the payload's entry is one. *)
Theorem verifySessionJWT_adminScopes (s : Server) (now : Z) (token : string)
    (c : Claims.t) :
  verifySession s now token = Normal (Some c) ->
  exists j v,
    decodeJws token = Some j /\
    getProp (jwt.payload j) "adminScopes" = Normal v /\
    Claims.adminScopes c = nullish v (JArr []) /\
    Claims.adminScopes c <> JUndefined /\
    Claims.adminScopes c <> JNull /\
    (v = JUndefined \/ v = JNull -> Claims.adminScopes c = JArr []) /\
    (forall items, v = JArr items -> Claims.adminScopes c = JArr items).
Proof.
  intros H.
  apply verifySessionJWT_Some in H
    as (decoded & userId & email & v & role & groups & Hv & _ & _ & Hget & _ & _ & ->).
  apply verify_Normal in Hv as (j & a & Hj & -> & _).
  exists j, v. cbn [Claims.adminScopes].
  repeat split; try assumption.
  - destruct v; discriminate.
  - destruct v; discriminate.
  - intros [-> | ->]; reflexivity.
  - intros items ->. reflexivity.
Qed.

Hypothesis decode_encode : forall j, decodeJws (encodeJws j) = Some j.
Hypothesis decode_empty : decodeJws "" = None.
Hypothesis hmac_nonempty : forall alg key h p, hmac alg key h p <> "".

(** The same round trip on any server whose secret is not empty. *)
Lemma createSessionJWT_verifySessionJWT (s : Server) (user : DemoUser.t) (t0 t1 : Z) :
  JWT_SECRET s <> "" ->
  t1 < t0 + jwt.ONE_DAY ->
  exists token,
    createSession s t0 user = Normal token /\
    verifySession s t1 token = Normal (Some (Claims.of_user user)).
Proof.
  intros Hsecret Hlt. unfold createSessionJWT.
  edestruct (sign_verify hmac decodeJws encodeJws decode_encode decode_empty hmac_nonempty)
    as (token & Hsign & Hverify); [ exact Hsecret | | | exact Hlt | ].
  3: { exists token. split; [ exact Hsign | ].
       unfold verifySessionJWT. rewrite Hverify. reflexivity. }
  all: reflexivity.
Qed.

(** C2. A token from [createSessionJWT], verified by the same server
    before one day has passed, gives back the user's claims. *)
Theorem session_roundtrip (e : ProcessEnv) (user : DemoUser.t) (t0 t1 : Z) :
  t1 < t0 + jwt.ONE_DAY ->
  exists token,
    createSession (load hashSync e) t0 user = Normal token /\
    verifySession (load hashSync e) t1 token = Normal (Some (Claims.of_user user)).
Proof.
  intros Hlt. apply createSessionJWT_verifySessionJWT; [ | exact Hlt ].
  simpl. now apply or_else_nonempty.
Qed.

End session_facts.

(** ** The auth gate *)

Section gate_facts.
Variable compareSync : string -> string -> bool.
Variable hmac : string -> string -> JValue -> JValue -> string.
Variable decodeJws : string -> option jwt.Jws.
Variable encodeJws : jwt.Jws -> string.
Variable toISOString : Z -> string.

Abbreviation verifySession := (verifySessionJWT hmac decodeJws).
Abbreviation currentUser := (getCurrentUser hmac decodeJws).
Abbreviation guard := (requireAuth hmac decodeJws).
Abbreviation run := (serve compareSync hmac decodeJws encodeJws toISOString).

Lemma truthy_false (o : option string) :
  truthy o = false -> o = None \/ o = Some "".
Proof.
  destruct o as [t | ]; [ | auto ]. simpl.
  destruct (String.eqb_spec t "") as [-> | ]; [ auto | discriminate ].
Qed.

Lemma truthy_Some (t : string) : t <> "" -> truthy (Some t) = true.
Proof. intros H. simpl. now rewrite (eqb_false_of_neq _ _ H). Qed.

Lemma getCurrentUser_cases (s : Server) (now : Z) (req : FastifyRequest) :
  currentUser s now req = Normal None \/
  exists t, t <> "" /\ currentUser s now req = verifySession s now t.
Proof.
  unfold getCurrentUser.
  match goal with |- context [match ?tok with Some _ => _ | None => _ end = Normal None] =>
    destruct tok as [t | ] end; [ | now left ].
  destruct (String.eqb_spec t ""); [ now left | right; eauto ].
Qed.

Lemma getCurrentUser_total (s : Server) (now : Z) (req : FastifyRequest) :
  exists r, currentUser s now req = Normal r.
Proof.
  destruct (getCurrentUser_cases s now req) as [H | (t & _ & H)]; rewrite H;
    [ eauto | apply verifySessionJWT_total ].
Qed.

Lemma getCurrentUser_signed (s : Server) (now : Z) (req : FastifyRequest) (t : string) :
  session (signedCookies req) = Some t -> t <> "" ->
  currentUser s now req = verifySession s now t.
Proof.
  intros Ht Hne. unfold getCurrentUser. rewrite Ht, (truthy_Some t Hne).
  cbn [negb andb]. now rewrite (eqb_false_of_neq _ _ Hne).
Qed.

Lemma getCurrentUser_no_cookie (s : Server) (now : Z) (req : FastifyRequest) :
  truthy (session (signedCookies req)) = false ->
  session (cookies req) = None ->
  currentUser s now req = Normal None.
Proof.
  intros Hs Hc. unfold getCurrentUser. rewrite Hs, Hc. cbn [negb andb truthy].
  destruct (truthy_false _ Hs) as [-> | ->]; reflexivity.
Qed.

Lemma getCurrentUser_unsigned (s : Server) (now : Z) (req : FastifyRequest)
    (v : string) (f : string -> UnsignResult) (t : string) :
  truthy (session (signedCookies req)) = false ->
  session (cookies req) = Some v -> v <> "" ->
  unsignCookie req = Some f -> valid (f v) = true ->
  value (f v) = Some t -> t <> "" ->
  currentUser s now req = verifySession s now t.
Proof.
  intros Hs Hc Hv Hf Hvalid Hvalue Ht. unfold getCurrentUser.
  rewrite Hs, Hc, (truthy_Some v Hv), Hf. cbn [negb andb fmap option_fmap option_map].
  rewrite Hvalid, Hvalue. now rewrite (eqb_false_of_neq _ _ Ht).
Qed.

Lemma getCurrentUser_rejected (s : Server) (now : Z) (req : FastifyRequest) (v : string) :
  truthy (session (signedCookies req)) = false ->
  session (cookies req) = Some v ->
  (forall f, unsignCookie req = Some f -> valid (f v) = false) ->
  currentUser s now req = Normal None.
Proof.
  intros Hs Hc Hf. unfold getCurrentUser. rewrite Hs, Hc. cbn [negb andb].
  assert (Hnone : match session (signedCookies req) with
                  | Some token => if String.eqb token "" then Normal None
                                  else verifySession s now token
                  | None => Normal None
                  end = Normal None).
  { destruct (truthy_false _ Hs) as [-> | ->]; reflexivity. }
  destruct (truthy (Some v)); [ | exact Hnone ].
  destruct (unsignCookie req) as [f | ]; [ | exact Hnone ].
  cbn [fmap option_fmap option_map]. now rewrite (Hf f eq_refl).
Qed.

Lemma getCurrentUser_falsy_cookie (s : Server) (now : Z) (req : FastifyRequest) :
  truthy (session (signedCookies req)) = false ->
  truthy (session (cookies req)) = false ->
  currentUser s now req = Normal None.
Proof.
  intros Hs Hc. unfold getCurrentUser. rewrite Hs, Hc. cbn [negb andb].
  destruct (truthy_false _ Hs) as [-> | ->]; reflexivity.
Qed.

Lemma getCurrentUser_unsigned_empty (s : Server) (now : Z) (req : FastifyRequest)
    (v : string) (f : string -> UnsignResult) :
  truthy (session (signedCookies req)) = false ->
  session (cookies req) = Some v -> v <> "" ->
  unsignCookie req = Some f -> valid (f v) = true ->
  truthy (value (f v)) = false ->
  currentUser s now req = Normal None.
Proof.
  intros Hs Hc Hv Hf Hvalid Hvalue. unfold getCurrentUser.
  rewrite Hs, Hc, (truthy_Some v Hv), Hf. cbn [negb andb fmap option_fmap option_map].
  rewrite Hvalid. destruct (truthy_false _ Hvalue) as [-> | ->]; reflexivity.
Qed.

(** How [getCurrentUser] comes by its token, case by case and leaving no
    case out.  The token is [signedCookies.session] when that is a
    non-empty string; failing that, it is what [unsignCookie] extracts from
    a non-empty [session] cookie, when it declares the cookie valid and the
    extracted value is non-empty.  With a token in hand the result is that
    of [verifySessionJWT] on it, unchanged; in every other case the result
    is [None] and nothing is decoded. *)
Theorem getCurrentUser_token (s : Server) (now : Z) (req : FastifyRequest) :
  (forall t, session (signedCookies req) = Some t -> t <> "" ->
     currentUser s now req = verifySession s now t) /\
  (truthy (session (signedCookies req)) = false ->
   truthy (session (cookies req)) = false ->
   currentUser s now req = Normal None) /\
  (forall v f t, truthy (session (signedCookies req)) = false ->
     session (cookies req) = Some v -> v <> "" ->
     unsignCookie req = Some f -> valid (f v) = true ->
     value (f v) = Some t -> t <> "" ->
     currentUser s now req = verifySession s now t) /\
  (forall v, truthy (session (signedCookies req)) = false ->
     session (cookies req) = Some v ->
     (forall f, unsignCookie req = Some f -> valid (f v) = false) ->
     currentUser s now req = Normal None) /\
  (forall v f, truthy (session (signedCookies req)) = false ->
     session (cookies req) = Some v -> v <> "" ->
     unsignCookie req = Some f -> valid (f v) = true ->
     truthy (value (f v)) = false ->
     currentUser s now req = Normal None) /\
  (currentUser s now req = Normal None \/
   exists t, t <> "" /\ currentUser s now req = verifySession s now t).
Proof.
  split; [ | split; [ | split; [ | split; [ | split ] ] ] ].
  - apply getCurrentUser_signed.
  - apply getCurrentUser_falsy_cookie.
  - apply getCurrentUser_unsigned.
  - apply getCurrentUser_rejected.
  - apply getCurrentUser_unsigned_empty.
  - apply getCurrentUser_cases.
Qed.

Ltac run_route :=
  unfold serve, lifecycle, preHandler, handler, requireAuth, login, logout, me,
    demoUsers, protected, status, send, setCookie, clearCookie, setReply,
    setRequest, bind, ask, lift, ret, respond, freshReply;
  cbn [server clock request reply statusCode cookieOps sent fst snd].

(** C4. [requireAuth] answers 401 with its fixed body exactly when
    [getCurrentUser] gives [None]; otherwise it leaves the reply alone,
    stores the claims, unchanged, in [request.user], and the handler of
    the protected route runs and sees them. *)
Theorem requireAuth_guard (s : Server) (now : Z) (req : FastifyRequest)
    (rep : FastifyReply) :
  (currentUser s now req = Normal None ->
   guard {| server := s; clock := now; request := req; reply := rep |}
   = (Normal tt,
      {| server := s; clock := now; request := req;
         reply := {| statusCode := 401; cookieOps := cookieOps rep;
                     sent := Some (JObj [("error", JStr "Authentication required")]) |} |})) /\
  (forall u, currentUser s now req = Normal (Some u) ->
   guard {| server := s; clock := now; request := req; reply := rep |}
   = (Normal tt,
      {| server := s; clock := now;
         request := {| body := body req; cookies := cookies req;
                       signedCookies := signedCookies req;
                       unsignCookie := unsignCookie req; user := Some u |};
         reply := rep |})) /\
  (res_status (fst (run GetProtected s now req)) = 401 <->
   currentUser s now req = Normal None) /\
  (currentUser s now req = Normal None ->
   fst (run GetProtected s now req)
   = {| res_status := 401; res_cookies := [];
        res_body := JObj [("error", JStr "Authentication required")] |}) /\
  (forall u, currentUser s now req = Normal (Some u) ->
   fst (run GetProtected s now req)
   = {| res_status := 200; res_cookies := [];
        res_body := JObj [ ("message", JStr "This is a protected route!");
                           ("user", Claims_toJS u);
                           ("timestamp", JStr (toISOString now)) ] |}).
Proof.
  assert (H401 : currentUser s now req = Normal None ->
                 fst (run GetProtected s now req)
                 = {| res_status := 401; res_cookies := [];
                      res_body := JObj [("error", JStr "Authentication required")] |}).
  { intros H. run_route. rewrite H. reflexivity. }
  assert (H200 : forall u, currentUser s now req = Normal (Some u) ->
                 fst (run GetProtected s now req)
                 = {| res_status := 200; res_cookies := [];
                      res_body := JObj [ ("message", JStr "This is a protected route!");
                                         ("user", Claims_toJS u);
                                         ("timestamp", JStr (toISOString now)) ] |}).
  { intros u H. run_route. rewrite H. reflexivity. }
  split; [ | split; [ | split; [ | split ] ] ].
  - intros H. run_route. rewrite H. reflexivity.
  - intros u H. run_route. rewrite H. reflexivity.
  - split.
    + intros Hst. destruct (getCurrentUser_total s now req) as [[u | ] Hr]; [ | exact Hr ].
      rewrite (H200 u Hr) in Hst. discriminate Hst.
    + intros H. now rewrite (H401 H).
  - exact H401.
  - exact H200.
Qed.

(** ** The login and logout routes *)

Ltac step := cbn [server clock request reply statusCode cookieOps sent fst snd negb orb].

Lemma toBoolean_JStr (t : string) : t <> "" -> toBoolean (JStr t) = true.
Proof. intros H. cbn [toBoolean]. now rewrite (eqb_false_of_neq _ _ H). Qed.

(** On strings it is [authenticateUser]. *)
Lemma authenticateUser_any_strings (s : Server) (em pw : string) :
  authenticateUser_any compareSync s (JStr em) (JStr pw)
  = Normal (authenticateUser compareSync s em pw).
Proof.
  unfold authenticateUser_any, authenticateUser. cbn [strictEqString].
  destruct (List.find _ (users s)) as [r | ]; [ | reflexivity ].
  destruct (compareSync pw (User.password r)); reflexivity.
Qed.

(** It returns a user to strings only. *)
Lemma authenticateUser_any_Some (s : Server) (e p : JValue) (u : DemoUser.t) :
  authenticateUser_any compareSync s e p = Normal (Some u) ->
  exists em pw, e = JStr em /\ p = JStr pw /\
                authenticateUser compareSync s em pw = Some u.
Proof.
  intros H.
  assert (exists em, e = JStr em) as [em ->].
  { unfold authenticateUser_any in H.
    destruct (List.find _ (users s)) as [r | ] eqn:F; [ | discriminate H ].
    apply find_some in F as [_ F]. destruct e; try discriminate F. eauto. }
  assert (exists pw, p = JStr pw) as [pw ->].
  { unfold authenticateUser_any in H.
    destruct (List.find _ (users s)) as [r | ]; [ | discriminate H ].
    destruct p; try discriminate H. eauto. }
  rewrite authenticateUser_any_strings in H. injection H as H. eauto.
Qed.

(** It throws exactly on a stored email with a password that is no string. *)
Lemma authenticateUser_any_Throw (s : Server) (e p : JValue) :
  (exists x, authenticateUser_any compareSync s e p = Throw x) <->
  (exists em r, e = JStr em /\ In r (users s) /\ User.email r = em) /\
  (forall pw, p <> JStr pw).
Proof.
  unfold authenticateUser_any. split.
  - intros [x H].
    destruct (List.find _ (users s)) as [r | ] eqn:F; [ | discriminate H ].
    apply find_some in F as [Hin F]. split.
    + destruct e; try discriminate F. cbn [strictEqString] in F.
      apply String.eqb_eq in F. eauto.
    + intros pw ->. destruct (compareSync pw (User.password r)); discriminate H.
  - intros [(em & r & -> & Hin & Hr) Hp].
    destruct (List.find _ (users s)) as [r' | ] eqn:F.
    + destruct p; eauto. now destruct (Hp s0).
    + pose proof (find_none _ _ F r Hin) as N. cbn [strictEqString] in N.
      rewrite Hr, String.eqb_refl in N. discriminate N.
Qed.

(** With no body to destructure the handler throws. *)
Lemma login_no_body (s : Server) (now : Z) (req : FastifyRequest) :
  body req = JUndefined \/ body req = JNull ->
  fst (run PostLogin s now req)
  = {| res_status := 500; res_cookies := [];
       res_body := JObj [("error", JStr "Internal server error")] |}.
Proof. intros H. run_route. destruct H as [-> | ->]; reflexivity. Qed.

Lemma getProp_Throw (v : JValue) (k : string) (x : Exn) :
  getProp v k = Throw x -> v = JUndefined \/ v = JNull.
Proof. destruct v; cbn; intros H; try discriminate H; auto. Qed.

Lemma getProp_Normal (v : JValue) (k k' : string) (a : JValue) :
  getProp v k = Normal a -> exists b, getProp v k' = Normal b.
Proof. destruct v; cbn; intros H; try discriminate H; eauto. Qed.

Lemma login_rejected (s : Server) (now : Z) (req : FastifyRequest) (e p : JValue) :
  getProp (body req) "email" = Normal e ->
  getProp (body req) "password" = Normal p ->
  toBoolean e = false \/ toBoolean p = false ->
  fst (run PostLogin s now req)
  = {| res_status := 400; res_cookies := [];
       res_body := JObj [("error", JStr "Email and password required")] |}.
Proof.
  intros He Hp H. run_route. rewrite He. step. rewrite Hp. step.
  assert (E : negb (toBoolean e) || negb (toBoolean p) = true).
  { destruct H as [-> | ->]; [ reflexivity | apply orb_true_r ]. }
  rewrite E. reflexivity.
Qed.

Lemma login_unauthenticated (s : Server) (now : Z) (req : FastifyRequest) (e p : JValue) :
  getProp (body req) "email" = Normal e ->
  getProp (body req) "password" = Normal p ->
  toBoolean e = true -> toBoolean p = true ->
  authenticateUser_any compareSync s e p = Normal None ->
  fst (run PostLogin s now req)
  = {| res_status := 401; res_cookies := [];
       res_body := JObj [("error", JStr "Invalid credentials")] |}.
Proof.
  intros He Hp Te Tp Hauth. run_route. rewrite He. step. rewrite Hp. step.
  rewrite Te, Tp. step. rewrite Hauth. reflexivity.
Qed.

Lemma login_compare_throws (s : Server) (now : Z) (req : FastifyRequest) (e p : JValue)
    (x : Exn) :
  getProp (body req) "email" = Normal e ->
  getProp (body req) "password" = Normal p ->
  toBoolean e = true -> toBoolean p = true ->
  authenticateUser_any compareSync s e p = Throw x ->
  fst (run PostLogin s now req)
  = {| res_status := 500; res_cookies := [];
       res_body := JObj [("error", JStr "Internal server error")] |}.
Proof.
  intros He Hp Te Tp Hauth. run_route. rewrite He. step. rewrite Hp. step.
  rewrite Te, Tp. step. rewrite Hauth. reflexivity.
Qed.

Lemma login_invalid (s : Server) (now : Z) (req : FastifyRequest) (em pw : string) :
  getProp (body req) "email" = Normal (JStr em) ->
  getProp (body req) "password" = Normal (JStr pw) ->
  em <> "" -> pw <> "" ->
  authenticateUser compareSync s em pw = None ->
  fst (run PostLogin s now req)
  = {| res_status := 401; res_cookies := [];
       res_body := JObj [("error", JStr "Invalid credentials")] |}.
Proof.
  intros He Hp Hem Hpw Hauth.
  apply (login_unauthenticated s now req (JStr em) (JStr pw) He Hp
           (toBoolean_JStr em Hem) (toBoolean_JStr pw Hpw)).
  now rewrite authenticateUser_any_strings, Hauth.
Qed.

Lemma login_accepted (s : Server) (now : Z) (req : FastifyRequest) (em pw : string)
    (u : DemoUser.t) (token : string) :
  getProp (body req) "email" = Normal (JStr em) ->
  getProp (body req) "password" = Normal (JStr pw) ->
  em <> "" -> pw <> "" ->
  authenticateUser compareSync s em pw = Some u ->
  createSessionJWT hmac encodeJws s now u = Normal token ->
  fst (run PostLogin s now req)
  = {| res_status := 200;
       res_cookies :=
         [ SetCookie "session" token
             {| httpOnly := true; secure := isProduction (env s);
                sameSite := "lax"; maxAge := 24 * 60 * 60 * 1000 |} ];
       res_body :=
         JObj [ ("success", JBool true);
                ("user", JObj [ ("id", JStr (DemoUser.id u));
                                ("email", JStr (DemoUser.email u));
                                ("role", JStr (DemoUser.role u));
                                ("groups", JArr (Group.toJS <$> DemoUser.groups u)) ]) ] |}.
Proof.
  intros He Hp Hem Hpw Hauth Htok. run_route. rewrite He. step. rewrite Hp. step.
  rewrite (toBoolean_JStr em Hem), (toBoolean_JStr pw Hpw). step.
  rewrite authenticateUser_any_strings, Hauth. step. rewrite Htok. reflexivity.
Qed.

Lemma login_failed_signing (s : Server) (now : Z) (req : FastifyRequest) (em pw : string)
    (u : DemoUser.t) (x : Exn) :
  getProp (body req) "email" = Normal (JStr em) ->
  getProp (body req) "password" = Normal (JStr pw) ->
  em <> "" -> pw <> "" ->
  authenticateUser compareSync s em pw = Some u ->
  createSessionJWT hmac encodeJws s now u = Throw x ->
  fst (run PostLogin s now req)
  = {| res_status := 500; res_cookies := [];
       res_body := JObj [("error", JStr "Internal server error")] |}.
Proof.
  intros He Hp Hem Hpw Hauth Htok. run_route. rewrite He. step. rewrite Hp. step.
  rewrite (toBoolean_JStr em Hem), (toBoolean_JStr pw Hpw). step.
  rewrite authenticateUser_any_strings, Hauth. step. rewrite Htok. reflexivity.
Qed.

Lemma createSessionJWT_Normal (s : Server) (now : Z) (u : DemoUser.t) :
  JWT_SECRET s <> "" ->
  exists token, createSessionJWT hmac encodeJws s now u = Normal token.
Proof.
  intros H. unfold createSessionJWT, jwt.sign.
  rewrite (eqb_false_of_neq _ _ H). eauto.
Qed.

(** C8. Logout answers every request the same way, clearing the [session]
    cookie and reporting success, and leaves the server as it was: any
    token verifies afterwards to what it verified to before. *)
Theorem logout_frame (s : Server) (now : Z) (req : FastifyRequest) :
  run PostLogout s now req
  = ({| res_status := 200; res_cookies := [ClearCookie "session"];
        res_body := JObj [("success", JBool true)] |}, s) /\
  (forall (t : Z) (token : string),
     verifySession (snd (run PostLogout s now req)) t token
     = verifySession s t token).
Proof. split; reflexivity. Qed.

End gate_facts.

Section login_facts.
Variable hashSync : string -> Z -> string.
Variable compareSync : string -> string -> bool.
Variable hmac : string -> string -> JValue -> JValue -> string.
Variable decodeJws : string -> option jwt.Jws.
Variable encodeJws : jwt.Jws -> string.
Variable toISOString : Z -> string.

Abbreviation run := (serve compareSync hmac decodeJws encodeJws toISOString).

(** C6, as the code has it.  For a login whose body is not [undefined] or
    [null]: if [email] or [password] is missing or falsy (for a string:
    empty) the answer is 400; if both are non-empty strings and no user is
    authenticated, 401 with the invalid-credentials message and no cookie;
    if a user is authenticated, 200 with one [session] cookie holding the
    token [createSessionJWT] just made for that user, and a payload
    [{ success: true, user }] whose [user] has the user's [id], [email],
    [role] and [groups]. *)
Theorem login_outcomes (e : ProcessEnv) (now : Z) (req : FastifyRequest) :
  let s := load hashSync e in
  (forall em pw,
     getProp (body req) "email" = Normal em ->
     getProp (body req) "password" = Normal pw ->
     toBoolean em = false \/ toBoolean pw = false ->
     fst (run PostLogin s now req)
     = {| res_status := 400; res_cookies := [];
          res_body := JObj [("error", JStr "Email and password required")] |}) /\
  (forall em pw,
     getProp (body req) "email" = Normal (JStr em) ->
     getProp (body req) "password" = Normal (JStr pw) ->
     em <> "" -> pw <> "" ->
     authenticateUser compareSync s em pw = None ->
     fst (run PostLogin s now req)
     = {| res_status := 401; res_cookies := [];
          res_body := JObj [("error", JStr "Invalid credentials")] |}) /\
  (forall em pw u,
     getProp (body req) "email" = Normal (JStr em) ->
     getProp (body req) "password" = Normal (JStr pw) ->
     em <> "" -> pw <> "" ->
     authenticateUser compareSync s em pw = Some u ->
     exists token options userObject,
       createSessionJWT hmac encodeJws s now u = Normal token /\
       res_status (fst (run PostLogin s now req)) = 200 /\
       res_cookies (fst (run PostLogin s now req))
       = [SetCookie "session" token options] /\
       res_body (fst (run PostLogin s now req))
       = JObj [("success", JBool true); ("user", userObject)] /\
       getProp userObject "id" = Normal (JStr (DemoUser.id u)) /\
       getProp userObject "email" = Normal (JStr (DemoUser.email u)) /\
       getProp userObject "role" = Normal (JStr (DemoUser.role u)) /\
       getProp userObject "groups"
       = Normal (JArr (Group.toJS <$> DemoUser.groups u))).
Proof.
  intros s. split; [ | split ].
  - intros em pw. apply login_rejected.
  - intros em pw. apply login_invalid.
  - intros em pw u He Hp Hem Hpw Hauth.
    destruct (createSessionJWT_Normal hmac encodeJws s now u) as [token Htok].
    { simpl. now apply or_else_nonempty. }
    rewrite (login_accepted compareSync hmac decodeJws encodeJws toISOString
               s now req em pw u token He Hp Hem Hpw Hauth Htok).
    do 3 eexists. split; [ exact Htok | ].
    cbn [res_status res_cookies res_body]. repeat split.
Qed.

End login_facts.

(** ** Running the server on the stand-ins *)

Section signed_tokens.
Variable hmac : string -> string -> JValue -> JValue -> string.
Variable decodeJws : string -> option jwt.Jws.
Variable encodeJws : jwt.Jws -> string.
Hypothesis decode_encode : forall j, decodeJws (encodeJws j) = Some j.
Hypothesis decode_empty : decodeJws "" = None.
Hypothesis hmac_nonempty : forall alg key h p, hmac alg key h p <> "".

(** Whoever holds the secret can have any payload accepted. *)
Lemma verify_signed (secret : string) (h p : JValue) (a : string) (now : Z) :
  secret <> "" ->
  getProp h "alg" = Normal (JStr a) ->
  existsb (String.eqb a) jwt.HMAC_ALGS = true ->
  jwt.checkNbf p now = Normal tt ->
  jwt.checkExp p now = Normal tt ->
  jwt.verify hmac decodeJws (encodeJws (jwt.mkJws h p (hmac a secret h p))) secret now
  = Normal p.
Proof.
  intros Hsecret Halg Ha Hnbf Hexp. unfold jwt.verify.
  rewrite (eqb_false_of_neq _ _
             (encode_nonempty decodeJws encodeJws decode_encode decode_empty _)).
  rewrite decode_encode. cbn [jwt.signature jwt.header jwt.payload].
  rewrite (eqb_false_of_neq _ _ (hmac_nonempty _ _ _ _)), (eqb_false_of_neq _ _ Hsecret).
  rewrite Halg. cbn [mbind Completion_bind]. rewrite Ha, String.eqb_refl.
  cbn [negb]. rewrite Hnbf, Hexp. reflexivity.
Qed.
End signed_tokens.

Lemma Toy_verify_signed (p : JValue) (now : Z) :
  jwt.checkNbf p now = Normal tt ->
  jwt.checkExp p now = Normal tt ->
  jwt.verify Toy.hmac Toy.decodeJws (Toy.signed "demo-secret-key" p)
    (JWT_SECRET (Toy.boot Toy.dev)) now
  = Normal p.
Proof.
  intros Hnbf Hexp. unfold Toy.signed.
  apply (verify_signed Toy.hmac Toy.decodeJws Toy.encodeJws
           Toy_decode_encode Toy_decode_empty Toy_hmac_nonempty);
    [ discriminate | reflexivity | reflexivity | exact Hnbf | exact Hexp ].
Qed.

Lemma Toy_authenticate_admin :
  authenticateUser Toy.compareSync (Toy.boot Toy.dev) "admin@example.com" "password123"
  = Some Toy.admin.
Proof. reflexivity. Qed.

Lemma Toy_createSession_admin :
  Toy.createSession (Toy.boot Toy.dev) 0 Toy.admin = Normal Toy.adminToken.
Proof. reflexivity. Qed.

Lemma Toy_verifySession_admin :
  Toy.verifySession (Toy.boot Toy.dev) 0 Toy.adminToken
  = Normal (Some (Claims.of_user Toy.admin)).
Proof.
  unfold verifySessionJWT, Toy.adminToken.
  rewrite Toy_verify_signed; reflexivity.
Qed.

Lemma Toy_session_lookup (b : JValue) (token : string) :
  session (cookies (Toy.bare b {[ "session" := token ]})) = Some token.
Proof. unfold session, Toy.bare. cbn [cookies mbind option_bind]. apply lookup_singleton_eq. Qed.

Lemma Toy_session_empty (b : JValue) : session (cookies (Toy.bare b ∅)) = None.
Proof. unfold session, Toy.bare. cbn [cookies mbind option_bind]. apply lookup_empty. Qed.

(** *** The credential store, run *)

Lemma authenticateUser_iff_witness :
  authenticateUser Toy.compareSync (Toy.boot Toy.dev) "Admin@example.com" "password123" = None /\
  authenticateUser Toy.compareSync (Toy.boot Toy.dev) "nobody@example.com" "password123" = None /\
  authenticateUser Toy.compareSync (Toy.boot Toy.dev) "admin@example.com" "wrong" = None /\
  authenticateUser Toy.compareSync (Toy.boot Toy.dev) "admin@example.com" "password123"
  = Some Toy.admin.
Proof.
  split; [ | split; [ | split ] ].
  - apply (authenticateUser_iff Toy.hashSync Toy.compareSync Toy.dev
             "Admin@example.com" "password123").
    intros r [<- | [<- | []]]; discriminate.
  - apply (authenticateUser_iff Toy.hashSync Toy.compareSync Toy.dev
             "nobody@example.com" "password123").
    intros r [<- | [<- | []]]; discriminate.
  - apply (proj2 (proj2 (authenticateUser_iff Toy.hashSync Toy.compareSync Toy.dev
                           "admin@example.com" "wrong"))
             (User.mk "user-1" "admin@example.com" (Toy.hashSync "password123" 10)
                ["autojoin"] "admin"
                [ Group.mk "team" (Some "team-1") None "Engineering";
                  Group.mk "organization" (Some "org-1") None "Acme Corp" ])).
    + left. reflexivity.
    + reflexivity.
    + reflexivity.
  - apply (authenticateUser_iff Toy.hashSync Toy.compareSync Toy.dev
             "admin@example.com" "password123").
    eexists. split; [ left; reflexivity | ]. repeat split.
Defined.

Lemma getDemoUsers_public_witness :
  exists d, getDemoUsers (Toy.boot Toy.dev) !! 1%nat = Some d /\
            DemoUser.id d = "user-2" /\ DemoUser.email d = "user@example.com" /\
            DemoUser.role d = "user" /\ DemoUser.adminScopes d = [].
Proof.
  destruct (proj1 (proj2 (getDemoUsers_public (Toy.boot Toy.dev))) 1%nat
              (User.mk "user-2" "user@example.com" (Toy.hashSync "userpass" 10)
                 [] "user" [ Group.mk "team" (Some "team-1") None "Engineering" ])
              eq_refl)
    as (d & Hd & Hid & Hemail & Hrole & _ & Hscopes).
  exists d. repeat split; assumption.
Defined.

(** *** The session codec, run *)

Lemma session_roundtrip_witness :
  3600 < 0 + jwt.ONE_DAY /\
  exists token,
    Toy.createSession (Toy.boot Toy.dev) 0 Toy.admin = Normal token /\
    Toy.verifySession (Toy.boot Toy.dev) 3600 token
    = Normal (Some (Claims.of_user Toy.admin)).
Proof.
  assert (H : 3600 < 0 + jwt.ONE_DAY) by reflexivity.
  split; [ exact H | ].
  exact (session_roundtrip Toy.hashSync Toy.hmac Toy.decodeJws Toy.encodeJws
           Toy_decode_encode Toy_decode_empty Toy_hmac_nonempty
           Toy.dev Toy.admin 0 3600 H).
Defined.

Lemma Toy_adminToken_decoded :
  exists j, Toy.decodeJws Toy.adminToken = Some j /\
            getProp (jwt.payload j) "exp" = Normal (JNum 86400).
Proof.
  unfold Toy.adminToken, Toy.signed. rewrite Toy_decode_encode.
  eexists. split; reflexivity.
Qed.

Lemma verifySessionJWT_absent_witness :
  Toy.verifySession (Toy.boot Toy.dev) 0 "garbage" = Normal None /\
  Toy.verifySession (Toy.boot Toy.dev) 86400 Toy.adminToken = Normal None /\
  Toy.verifySession (Toy.boot Toy.dev) 0
    (Toy.signed "another-secret" (JObj [("userId", JStr "user-1"); ("exp", JNum 86400)]))
  = Normal None.
Proof.
  split; [ | split ].
  - apply (verifySessionJWT_absent Toy.hmac Toy.decodeJws (Toy.boot Toy.dev) 0 "garbage").
    reflexivity.
  - destruct Toy_adminToken_decoded as (j & Hj & Hexp).
    apply (proj2 (proj2 (proj2 (verifySessionJWT_absent Toy.hmac Toy.decodeJws
                                  (Toy.boot Toy.dev) 86400 Toy.adminToken)))
             j 86400 Hj Hexp).
    apply Z.le_refl.
  - apply (proj1 (proj2 (proj2 (verifySessionJWT_absent Toy.hmac Toy.decodeJws
                                  (Toy.boot Toy.dev) 0 _)))
             _ (Toy_decode_encode _)).
    intros a Ha. cbn in Ha. injection Ha as <-.
    unfold Toy.hmac. cbn [jwt.header jwt.payload jwt.signature append].
    intros H. discriminate H.
Defined.

Lemma Toy_verifySession_legacy :
  Toy.verifySession (Toy.boot Toy.dev) 0 Toy.legacyToken
  = Normal (Some {| Claims.id := JStr "user-2";
                    Claims.email := JStr "user@example.com";
                    Claims.adminScopes := JArr [];
                    Claims.role := JStr "user";
                    Claims.groups := JArr [] |}).
Proof.
  unfold verifySessionJWT, Toy.legacyToken.
  rewrite Toy_verify_signed; reflexivity.
Qed.

Lemma verifySessionJWT_adminScopes_witness :
  exists c, Toy.verifySession (Toy.boot Toy.dev) 0 Toy.legacyToken = Normal (Some c) /\
            Claims.adminScopes c <> JUndefined /\ Claims.adminScopes c <> JNull.
Proof.
  eexists. split; [ exact Toy_verifySession_legacy | ].
  destruct (verifySessionJWT_adminScopes Toy.hmac Toy.decodeJws (Toy.boot Toy.dev) 0
              Toy.legacyToken _ Toy_verifySession_legacy)
    as (j & v & _ & _ & _ & Hu & Hn & _).
  split; assumption.
Defined.

(** C10, as stated, fails: a token that carries the server's signature and a
    string under [adminScopes] is accepted, and the string comes back. *)
Lemma verifySessionJWT_adminScopes_not_a_list :
  Toy.verifySession (Toy.boot Toy.dev) 0 Toy.foreignToken
  = Normal (Some {| Claims.id := JStr "user-2";
                    Claims.email := JUndefined;
                    Claims.adminScopes := JStr "all";
                    Claims.role := JUndefined;
                    Claims.groups := JUndefined |}) /\
  (forall items, JStr "all" <> JArr items).
Proof.
  split; [ | discriminate ].
  unfold verifySessionJWT, Toy.foreignToken.
  rewrite Toy_verify_signed; reflexivity.
Qed.

(** *** The auth gate, run *)

Lemma Toy_currentUser_no_cookie :
  Toy.currentUser (Toy.boot Toy.dev) 0 (Toy.bare Toy.noBody ∅) = Normal None.
Proof.
  unfold getCurrentUser. rewrite Toy_session_empty. reflexivity.
Qed.

Lemma Toy_currentUser_vouched (s : Server) (now : Z) (t : string) :
  t <> "" ->
  Toy.currentUser s now (Toy.vouched Toy.noBody {[ "session" := t ]})
  = Toy.verifySession s now t.
Proof.
  intros Ht.
  apply (getCurrentUser_unsigned Toy.hmac Toy.decodeJws s now _ t
           (fun v => {| valid := true; renew := false; value := Some v |}) t);
    try reflexivity; assumption.
Qed.

Lemma Toy_adminToken_nonempty : Toy.adminToken <> "".
Proof. unfold Toy.adminToken, Toy.signed, Toy.encodeJws. discriminate. Qed.

Lemma Toy_verifySession_garbage (now : Z) :
  Toy.verifySession (Toy.boot Toy.dev) now "garbage" = Normal None.
Proof.
  destruct (verify_malformed Toy.hmac Toy.decodeJws "garbage"
              (JWT_SECRET (Toy.boot Toy.dev)) now eq_refl) as [e E].
  now apply verifySessionJWT_throw with e.
Qed.

Lemma Toy_verifySession_expired (now : Z) :
  86400 <= now ->
  Toy.verifySession (Toy.boot Toy.dev) now Toy.adminToken = Normal None.
Proof.
  intros H. destruct Toy_adminToken_decoded as (j & Hj & Hexp).
  destruct (verify_expired Toy.hmac Toy.decodeJws Toy.adminToken
              (JWT_SECRET (Toy.boot Toy.dev)) now j 86400 Hj Hexp H) as [e E].
  now apply verifySessionJWT_throw with e.
Qed.

Lemma requireAuth_guard_witness :
  fst (Toy.run GetProtected (Toy.boot Toy.dev) 0 (Toy.bare Toy.noBody ∅))
  = {| res_status := 401; res_cookies := [];
       res_body := JObj [("error", JStr "Authentication required")] |} /\
  fst (Toy.run GetProtected (Toy.boot Toy.dev) 0
         (Toy.vouched Toy.noBody {[ "session" := "garbage" ]}))
  = {| res_status := 401; res_cookies := [];
       res_body := JObj [("error", JStr "Authentication required")] |} /\
  fst (Toy.run GetProtected (Toy.boot Toy.dev) 86400
         (Toy.vouched Toy.noBody {[ "session" := Toy.adminToken ]}))
  = {| res_status := 401; res_cookies := [];
       res_body := JObj [("error", JStr "Authentication required")] |} /\
  fst (Toy.run GetProtected (Toy.boot Toy.dev) 0
         (Toy.vouched Toy.noBody {[ "session" := Toy.adminToken ]}))
  = {| res_status := 200; res_cookies := [];
       res_body := JObj [ ("message", JStr "This is a protected route!");
                          ("user", Claims_toJS (Claims.of_user Toy.admin));
                          ("timestamp", JStr (Toy.toISOString 0)) ] |}.
Proof.
  split; [ | split; [ | split ] ].
  - apply (requireAuth_guard Toy.compareSync Toy.hmac Toy.decodeJws Toy.encodeJws
             Toy.toISOString (Toy.boot Toy.dev) 0 (Toy.bare Toy.noBody ∅) freshReply).
    exact Toy_currentUser_no_cookie.
  - apply (requireAuth_guard Toy.compareSync Toy.hmac Toy.decodeJws Toy.encodeJws
             Toy.toISOString (Toy.boot Toy.dev) 0 _ freshReply).
    rewrite Toy_currentUser_vouched; [ apply Toy_verifySession_garbage | discriminate ].
  - apply (requireAuth_guard Toy.compareSync Toy.hmac Toy.decodeJws Toy.encodeJws
             Toy.toISOString (Toy.boot Toy.dev) 86400 _ freshReply).
    rewrite Toy_currentUser_vouched;
      [ apply Toy_verifySession_expired, Z.le_refl | apply Toy_adminToken_nonempty ].
  - apply (requireAuth_guard Toy.compareSync Toy.hmac Toy.decodeJws Toy.encodeJws
             Toy.toISOString (Toy.boot Toy.dev) 0 _ freshReply).
    rewrite Toy_currentUser_vouched;
      [ exact Toy_verifySession_admin | apply Toy_adminToken_nonempty ].
Defined.

Lemma getCurrentUser_token_witness :
  Toy.currentUser (Toy.boot Toy.dev) 0
    (Toy.bare Toy.noBody {[ "session" := Toy.adminToken ]})
  = Normal None.
Proof.
  apply (proj1 (proj2 (proj2 (proj2
           (getCurrentUser_token Toy.hmac Toy.decodeJws (Toy.boot Toy.dev) 0
              (Toy.bare Toy.noBody {[ "session" := Toy.adminToken ]})))))
           Toy.adminToken).
  - reflexivity.
  - apply Toy_session_lookup.
  - intros f Hf. injection Hf as <-. reflexivity.
Defined.

(** *** Login, run *)

Lemma isProduction_iff (e : ProcessEnv) :
  isProduction e = true <-> env_NODE_ENV e = Some "production".
Proof.
  unfold isProduction. destruct (env_NODE_ENV e) as [v | ]; [ | split; discriminate ].
  rewrite String.eqb_eq. split; congruence.
Qed.

Lemma login_outcomes_witness :
  res_status (fst (Toy.run PostLogin (Toy.boot Toy.dev) 0
                     (Toy.bare (Toy.credentials "admin@example.com" "password123") ∅)))
  = 200 /\
  fst (Toy.run PostLogin (Toy.boot Toy.dev) 0
         (Toy.bare (Toy.credentials "admin@example.com" "wrong") ∅))
  = {| res_status := 401; res_cookies := [];
       res_body := JObj [("error", JStr "Invalid credentials")] |} /\
  fst (Toy.run PostLogin (Toy.boot Toy.dev) 0
         (Toy.bare (JObj [("email", JStr "admin@example.com")]) ∅))
  = {| res_status := 400; res_cookies := [];
       res_body := JObj [("error", JStr "Email and password required")] |}.
Proof.
  split; [ | split ].
  - destruct (proj2 (proj2 (login_outcomes Toy.hashSync Toy.compareSync Toy.hmac
                              Toy.decodeJws Toy.encodeJws Toy.toISOString Toy.dev 0
                              (Toy.bare (Toy.credentials "admin@example.com" "password123") ∅)))
                "admin@example.com" "password123" Toy.admin)
      as (token & options & userObject & _ & Hstatus & _);
      [ reflexivity | reflexivity | discriminate | discriminate | reflexivity | ].
    exact Hstatus.
  - apply (proj1 (proj2 (login_outcomes Toy.hashSync Toy.compareSync Toy.hmac
                           Toy.decodeJws Toy.encodeJws Toy.toISOString Toy.dev 0
                           (Toy.bare (Toy.credentials "admin@example.com" "wrong") ∅)))
             "admin@example.com" "wrong");
      [ reflexivity | reflexivity | discriminate | discriminate | reflexivity ].
  - apply (proj1 (login_outcomes Toy.hashSync Toy.compareSync Toy.hmac
                    Toy.decodeJws Toy.encodeJws Toy.toISOString Toy.dev 0
                    (Toy.bare (JObj [("email", JStr "admin@example.com")]) ∅))
             (JStr "admin@example.com") JUndefined);
      [ reflexivity | reflexivity | right; reflexivity ].
Defined.

(** C6, as stated, fails: both members are present, no user is
    authenticated, and the answer is 400 rather than 401, because the empty
    string counts as missing. *)
Lemma login_empty_email_is_400 :
  getProp (Toy.credentials "" "secret") "email" = Normal (JStr "") /\
  getProp (Toy.credentials "" "secret") "password" = Normal (JStr "secret") /\
  authenticateUser Toy.compareSync (Toy.boot Toy.dev) "" "secret" = None /\
  fst (Toy.run PostLogin (Toy.boot Toy.dev) 0 (Toy.bare (Toy.credentials "" "secret") ∅))
  = {| res_status := 400; res_cookies := [];
       res_body := JObj [("error", JStr "Email and password required")] |}.
Proof.
  split; [ reflexivity | ]. split; [ reflexivity | ]. split; [ reflexivity | ].
  apply login_rejected with (e := JStr "") (p := JStr "secret");
    [ reflexivity | reflexivity | left; reflexivity ].
Qed.

(** C7. The cookie a successful login sets: named [session], http-only,
    [sameSite] lax, not secure outside production, holding the token just
    signed.  Its [maxAge] is 86400000, the milliseconds of a day, which in
    the seconds of [Max-Age] is a thousand days. *)
Theorem login_cookie_maxAge :
  res_cookies (fst (Toy.run PostLogin (Toy.boot Toy.dev) 0
                      (Toy.bare (Toy.credentials "admin@example.com" "password123") ∅)))
  = [ SetCookie "session" Toy.adminToken
        {| httpOnly := true; secure := false; sameSite := "lax";
           maxAge := 1000 * jwt.ONE_DAY |} ].
Proof.
  rewrite (login_accepted Toy.compareSync Toy.hmac Toy.decodeJws Toy.encodeJws
             Toy.toISOString (Toy.boot Toy.dev) 0 _ "admin@example.com" "password123"
             Toy.admin Toy.adminToken);
    [ reflexivity | reflexivity | reflexivity | discriminate | discriminate
    | exact Toy_authenticate_admin | exact Toy_createSession_admin ].
Qed.

(** * Further properties *)

(** ** The credential store on any list of records *)

Section store_more.
Variable compareSync : string -> string -> bool.

Lemma find_first_email (pre post : list User.t) (r : User.t) (email : string) :
  (forall x, In x pre -> User.email x <> email) ->
  User.email r = email ->
  List.find (fun u => String.eqb (User.email u) email) (pre ++ r :: post) = Some r.
Proof.
  intros Hpre Hr. induction pre as [ | x pre IH ]; cbn [app List.find].
  - now rewrite Hr, String.eqb_refl.
  - rewrite (eqb_false_of_neq _ _ (Hpre x (or_introl eq_refl))).
    apply IH. intros y Hy. apply Hpre. now right.
Qed.

(** X1. Only the first record with the given email is ever consulted: the
    outcome is decided by its hash alone, whatever records follow it. *)
Theorem authenticateUser_first_match (s : Server) (email password : string)
    (pre post : list User.t) (r : User.t) :
  users s = (pre ++ r :: post)%list ->
  (forall x, In x pre -> User.email x <> email) ->
  User.email r = email ->
  authenticateUser compareSync s email password
  = if compareSync password (User.password r) then Some (publicFields r) else None.
Proof.
  intros Hs Hpre Hr. unfold authenticateUser.
  rewrite Hs, (find_first_email pre post r email Hpre Hr).
  destruct (compareSync password (User.password r)); reflexivity.
Qed.

(** X2. Whoever [authenticateUser] returns is one of the records
    [getDemoUsers] lists, has the email that was asked for, and comes from a
    stored record whose hash accepted the password. *)
Theorem authenticateUser_listed (s : Server) (email password : string)
    (u : DemoUser.t) :
  authenticateUser compareSync s email password = Some u ->
  In u (getDemoUsers s) /\ DemoUser.email u = email /\
  exists r, In r (users s) /\ u = publicFields r /\
            compareSync password (User.password r) = true.
Proof.
  unfold authenticateUser, getDemoUsers.
  destruct (List.find _ (users s)) as [r | ] eqn:F; [ | discriminate ].
  apply find_some in F as [Hin He]. apply String.eqb_eq in He.
  destruct (compareSync password (User.password r)) eqn:C; [ | discriminate ].
  cbn [negb]. intros H. injection H as H. subst u.
  split; [ | split; [ exact He | exists r; auto ] ].
  apply in_map_iff. exists r. auto.
Qed.

End store_more.

Lemma authenticateUser_first_match_witness :
  authenticateUser Toy.compareSync Toy_twins "twin@example.com" "second" = None /\
  authenticateUser Toy.compareSync Toy_twins "twin@example.com" "first"
  = Some (DemoUser.mk "a" "twin@example.com" [] "user" []).
Proof.
  split.
  - exact (authenticateUser_first_match Toy.compareSync Toy_twins "twin@example.com"
             "second" []
             [User.mk "b" "twin@example.com" (Toy.hashSync "second" 10) ["autojoin"] "admin" []]
             (User.mk "a" "twin@example.com" (Toy.hashSync "first" 10) [] "user" [])
             eq_refl (fun x (H : In x []) => match H with end) eq_refl).
  - exact (authenticateUser_first_match Toy.compareSync Toy_twins "twin@example.com"
             "first" []
             [User.mk "b" "twin@example.com" (Toy.hashSync "second" 10) ["autojoin"] "admin" []]
             (User.mk "a" "twin@example.com" (Toy.hashSync "first" 10) [] "user" [])
             eq_refl (fun x (H : In x []) => match H with end) eq_refl).
Defined.

Lemma authenticateUser_listed_witness :
  In Toy.admin (getDemoUsers (Toy.boot Toy.dev)) /\
  DemoUser.email Toy.admin = "admin@example.com".
Proof.
  destruct (authenticateUser_listed Toy.compareSync (Toy.boot Toy.dev)
              "admin@example.com" "password123" Toy.admin Toy_authenticate_admin)
    as (Hin & He & _).
  split; assumption.
Defined.

(** ** The session codec: what is accepted, for how long, under which secret *)

Section session_more.
Variable hmac : string -> string -> JValue -> JValue -> string.
Variable decodeJws : string -> option jwt.Jws.
Variable encodeJws : jwt.Jws -> string.

Abbreviation verifySession := (verifySessionJWT hmac decodeJws).
Abbreviation createSession := (createSessionJWT hmac encodeJws).
Abbreviation HS256 := (JObj [("alg", JStr "HS256"); ("typ", JStr "JWT")]).

Lemma eqb_true_of_existsb (a : string) (l : list string) :
  existsb (String.eqb a) l = true -> In a l.
Proof.
  intros H. apply existsb_exists in H as (x & Hx & E).
  apply String.eqb_eq in E. now subst x.
Qed.

(** [verify_Normal] with everything the checks established. *)
Lemma verify_accepted token secret now p :
  jwt.verify hmac decodeJws token secret now = Normal p ->
  token <> "" /\ secret <> "" /\
  exists j a,
    decodeJws token = Some j /\ p = jwt.payload j /\
    getProp (jwt.header j) "alg" = Normal (JStr a) /\ In a jwt.HMAC_ALGS /\
    jwt.signature j <> "" /\
    jwt.signature j = hmac a secret (jwt.header j) (jwt.payload j) /\
    (forall n, getProp (jwt.payload j) "nbf" = Normal (JNum n) -> n <= now) /\
    (forall e, getProp (jwt.payload j) "exp" = Normal (JNum e) -> now < e).
Proof.
  unfold jwt.verify.
  destruct (String.eqb_spec token "") as [ | Htoken ]; [ discriminate | ].
  destruct (decodeJws token) as [j | ]; [ | discriminate ].
  destruct (String.eqb_spec (jwt.signature j) "") as [ | Hsig0 ]; [ discriminate | ].
  destruct (String.eqb_spec secret "") as [ | Hsecret ]; [ discriminate | ].
  intros H. apply bind_Normal in H as (alg & Halg & H).
  destruct alg as [ | | | | a | | ]; try discriminate.
  destruct (existsb (String.eqb a) jwt.HMAC_ALGS) eqn:Ha; [ | discriminate ].
  cbn [negb] in H.
  destruct (String.eqb_spec (jwt.signature j)
              (hmac a secret (jwt.header j) (jwt.payload j))) as [Hsig | ];
    cbn [negb] in H; [ | discriminate ].
  apply bind_Normal in H as ([] & Hnbf & H).
  apply bind_Normal in H as ([] & Hexp & H).
  injection H as Hp. subst p.
  split; [ exact Htoken | ]. split; [ exact Hsecret | ].
  exists j, a. repeat split; try assumption.
  - now apply eqb_true_of_existsb.
  - intros n Hn. unfold jwt.checkNbf in Hnbf. rewrite Hn in Hnbf.
    cbn [mbind Completion_bind] in Hnbf.
    destruct (Z.ltb_spec now n); [ discriminate | assumption ].
  - intros e He. unfold jwt.checkExp in Hexp. rewrite He in Hexp.
    cbn [mbind Completion_bind] in Hexp.
    destruct (Z.leb_spec e now); [ discriminate | assumption ].
Qed.

(** X3. A token is accepted only if it decodes, names an HMAC algorithm,
    carries a non-empty signature that is the MAC of its content under the
    server's secret, is not before its [nbf] and is before its [exp]; the
    claims returned are the payload's [userId], [email], [role] and
    [groups] as they stand. *)
Theorem verifySessionJWT_sound (s : Server) (now : Z) (token : string) (c : Claims.t) :
  verifySession s now token = Normal (Some c) ->
  token <> "" /\ JWT_SECRET s <> "" /\
  exists j a,
    decodeJws token = Some j /\
    getProp (jwt.header j) "alg" = Normal (JStr a) /\ In a jwt.HMAC_ALGS /\
    jwt.signature j <> "" /\
    jwt.signature j = hmac a (JWT_SECRET s) (jwt.header j) (jwt.payload j) /\
    (forall n, getProp (jwt.payload j) "nbf" = Normal (JNum n) -> n <= now) /\
    (forall e, getProp (jwt.payload j) "exp" = Normal (JNum e) -> now < e) /\
    getProp (jwt.payload j) "userId" = Normal (Claims.id c) /\
    getProp (jwt.payload j) "email" = Normal (Claims.email c) /\
    getProp (jwt.payload j) "role" = Normal (Claims.role c) /\
    getProp (jwt.payload j) "groups" = Normal (Claims.groups c).
Proof.
  intros H.
  apply verifySessionJWT_Some in H
    as (decoded & userId & email & v & role & groups & Hv & Hid & Hemail & _ & Hrole & Hgroups & ->).
  apply verify_accepted in Hv
    as (Htoken & Hsecret & j & a & Hj & -> & Halg & Ha & Hsig0 & Hsig & Hnbf & Hexp).
  split; [ exact Htoken | ]. split; [ exact Hsecret | ].
  exists j, a. cbn [Claims.id Claims.email Claims.role Claims.groups].
  repeat split; assumption.
Qed.

(** What [createSessionJWT] hands back, when it hands back anything. *)
Lemma createSessionJWT_inv (s : Server) (t0 : Z) (u : DemoUser.t) (token : string) :
  createSession s t0 u = Normal token ->
  JWT_SECRET s <> "" /\
  exists p,
    token = encodeJws (jwt.mkJws HS256 p (hmac "HS256" (JWT_SECRET s) HS256 p)) /\
    getProp p "exp" = Normal (JNum (t0 + jwt.ONE_DAY)).
Proof.
  unfold createSessionJWT, jwt.sign.
  destruct (String.eqb_spec (JWT_SECRET s) "") as [ | Hsecret ]; [ discriminate | ].
  intros H. injection H as H. subst token.
  split; [ exact Hsecret | ]. eexists. split; reflexivity.
Qed.

Hypothesis decode_encode : forall j, decodeJws (encodeJws j) = Some j.

(** X4. A session does not survive a change of secret: a token from
    [createSessionJWT] is refused by a server whose secret gives the token's
    content another MAC. *)
Theorem session_other_secret (s s' : Server) (u : DemoUser.t) (t0 t1 : Z)
    (token : string) :
  createSession s t0 u = Normal token ->
  (forall j, decodeJws token = Some j ->
     hmac "HS256" (JWT_SECRET s) (jwt.header j) (jwt.payload j)
     <> hmac "HS256" (JWT_SECRET s') (jwt.header j) (jwt.payload j)) ->
  verifySession s' t1 token = Normal None.
Proof.
  intros Hcreate Hmac.
  apply createSessionJWT_inv in Hcreate as (_ & p & -> & _).
  apply (verifySessionJWT_other_secret hmac decodeJws s' t1 _ HS256 p "HS256"
           (JWT_SECRET s)).
  - exact (Hmac _ (decode_encode _)).
  - reflexivity.
  - apply decode_encode.
Qed.

Hypothesis decode_empty : decodeJws "" = None.
Hypothesis hmac_nonempty : forall alg key h p, hmac alg key h p <> "".

(** X5. A session lasts exactly one day: the token [createSessionJWT] made
    at [t0] gives back the user's claims at every clock before
    [t0 + 86400], and [None] from that second on. *)
Theorem session_expiry (s : Server) (u : DemoUser.t) (t0 t1 : Z) (token : string) :
  createSession s t0 u = Normal token ->
  (verifySession s t1 token = Normal (Some (Claims.of_user u)) <-> t1 < t0 + jwt.ONE_DAY) /\
  (t0 + jwt.ONE_DAY <= t1 -> verifySession s t1 token = Normal None).
Proof.
  intros Hcreate.
  assert (Hlate : t0 + jwt.ONE_DAY <= t1 -> verifySession s t1 token = Normal None).
  { intros Hle. apply createSessionJWT_inv in Hcreate as (_ & p & -> & Hexp).
    destruct (verify_expired hmac decodeJws _ (JWT_SECRET s) t1
                (jwt.mkJws HS256 p (hmac "HS256" (JWT_SECRET s) HS256 p))
                (t0 + jwt.ONE_DAY) (decode_encode _) Hexp Hle) as [e E].
    now apply verifySessionJWT_throw with e. }
  split; [ | exact Hlate ]. split.
  - intros Hv. destruct (Z.lt_ge_cases t1 (t0 + jwt.ONE_DAY)) as [ | Hle ]; [ assumption | ].
    rewrite (Hlate Hle) in Hv. discriminate Hv.
  - intros Hlt. pose proof Hcreate as Hinv.
    apply createSessionJWT_inv in Hinv as (Hsecret & _).
    destruct (createSessionJWT_verifySessionJWT hmac decodeJws encodeJws
                decode_encode decode_empty hmac_nonempty s u t0 t1 Hsecret Hlt)
      as (token' & Hc & Hv).
    rewrite Hcreate in Hc. injection Hc as Hc. now subst token'.
Qed.

End session_more.

Lemma verifySessionJWT_sound_witness :
  exists j a,
    Toy.decodeJws Toy.adminToken = Some j /\
    getProp (jwt.header j) "alg" = Normal (JStr a) /\ In a jwt.HMAC_ALGS /\
    getProp (jwt.payload j) "userId" = Normal (JStr "user-1").
Proof.
  destruct (verifySessionJWT_sound Toy.hmac Toy.decodeJws (Toy.boot Toy.dev) 0
              Toy.adminToken (Claims.of_user Toy.admin) Toy_verifySession_admin)
    as (_ & _ & j & a & Hj & Halg & Ha & _ & _ & _ & _ & Hid & _).
  exists j, a. repeat split; assumption.
Defined.

Lemma session_other_secret_witness :
  Toy.verifySession (Toy.boot Toy_rotated) 0 Toy.adminToken = Normal None.
Proof.
  apply (session_other_secret Toy.hmac Toy.decodeJws Toy.encodeJws Toy_decode_encode
           (Toy.boot Toy.dev) (Toy.boot Toy_rotated) Toy.admin 0 0 Toy.adminToken
           Toy_createSession_admin).
  intros j _.
  change (JWT_SECRET (Toy.boot Toy.dev)) with "demo-secret-key".
  change (JWT_SECRET (Toy.boot Toy_rotated)) with "rotated-secret".
  unfold Toy.hmac. cbn [append]. intros H. discriminate H.
Defined.

Lemma session_expiry_witness :
  Toy.verifySession (Toy.boot Toy.dev) 86399 Toy.adminToken
  = Normal (Some (Claims.of_user Toy.admin)) /\
  Toy.verifySession (Toy.boot Toy.dev) 86400 Toy.adminToken = Normal None.
Proof.
  split.
  - apply (session_expiry Toy.hmac Toy.decodeJws Toy.encodeJws Toy_decode_encode
             Toy_decode_empty Toy_hmac_nonempty (Toy.boot Toy.dev) Toy.admin 0 86399
             Toy.adminToken Toy_createSession_admin).
    reflexivity.
  - apply (session_expiry Toy.hmac Toy.decodeJws Toy.encodeJws Toy_decode_encode
             Toy_decode_empty Toy_hmac_nonempty (Toy.boot Toy.dev) Toy.admin 0 86400
             Toy.adminToken Toy_createSession_admin).
    apply Z.le_refl.
Defined.

(** ** The two revisions of [auth.ts] read each other's tokens *)

Section revisions.
Variable hmac : string -> string -> JValue -> JValue -> string.
Variable decodeJws : string -> option jwt.Jws.
Variable encodeJws : jwt.Jws -> string.
Hypothesis decode_encode : forall j, decodeJws (encodeJws j) = Some j.
Hypothesis decode_empty : decodeJws "" = None.
Hypothesis hmac_nonempty : forall alg key h p, hmac alg key h p <> "".

(** X6. The earlier revision's own round trip: its [verifySessionJWT] gives
    back the four members its [createSessionJWT] signed, within the day. *)
Theorem legacy_session_roundtrip (s : Server) (u : LegacyDemoUser.t) (t0 t1 : Z) :
  JWT_SECRET s <> "" ->
  t1 < t0 + jwt.ONE_DAY ->
  exists token,
    Legacy_createSessionJWT hmac encodeJws s t0 u = Normal token /\
    Legacy_verifySessionJWT hmac decodeJws s t1 token
    = Normal (Some {| legacy_id := JStr (LegacyDemoUser.id u);
                      legacy_email := JStr (LegacyDemoUser.email u);
                      legacy_role := JStr (LegacyDemoUser.role u);
                      legacy_groups := JArr (Group.toJS <$> LegacyDemoUser.groups u) |}).
Proof.
  intros Hsecret Hlt. unfold Legacy_createSessionJWT.
  edestruct (sign_verify hmac decodeJws encodeJws decode_encode decode_empty hmac_nonempty)
    as (token & Hsign & Hverify); [ exact Hsecret | | | exact Hlt | ].
  3: { exists token. split; [ exact Hsign | ].
       unfold Legacy_verifySessionJWT. rewrite Hverify. reflexivity. }
  all: reflexivity.
Qed.

(** X7. A token the earlier revision signed, which has no [adminScopes], is
    accepted by the current [verifySessionJWT]: the four members come back
    and [adminScopes] is the empty array. *)
Theorem legacy_token_current_verify (s : Server) (u : LegacyDemoUser.t) (t0 t1 : Z) :
  JWT_SECRET s <> "" ->
  t1 < t0 + jwt.ONE_DAY ->
  exists token,
    Legacy_createSessionJWT hmac encodeJws s t0 u = Normal token /\
    verifySessionJWT hmac decodeJws s t1 token
    = Normal (Some {| Claims.id := JStr (LegacyDemoUser.id u);
                      Claims.email := JStr (LegacyDemoUser.email u);
                      Claims.adminScopes := JArr [];
                      Claims.role := JStr (LegacyDemoUser.role u);
                      Claims.groups := JArr (Group.toJS <$> LegacyDemoUser.groups u) |}).
Proof.
  intros Hsecret Hlt. unfold Legacy_createSessionJWT.
  edestruct (sign_verify hmac decodeJws encodeJws decode_encode decode_empty hmac_nonempty)
    as (token & Hsign & Hverify); [ exact Hsecret | | | exact Hlt | ].
  3: { exists token. split; [ exact Hsign | ].
       unfold verifySessionJWT. rewrite Hverify. reflexivity. }
  all: reflexivity.
Qed.

(** X8. A token the current revision signed is accepted by the earlier
    [verifySessionJWT], which returns [id], [email], [role] and [groups]
    and leaves [adminScopes] behind. *)
Theorem current_token_legacy_verify (s : Server) (u : DemoUser.t) (t0 t1 : Z) :
  JWT_SECRET s <> "" ->
  t1 < t0 + jwt.ONE_DAY ->
  exists token,
    createSessionJWT hmac encodeJws s t0 u = Normal token /\
    Legacy_verifySessionJWT hmac decodeJws s t1 token
    = Normal (Some {| legacy_id := JStr (DemoUser.id u);
                      legacy_email := JStr (DemoUser.email u);
                      legacy_role := JStr (DemoUser.role u);
                      legacy_groups := JArr (Group.toJS <$> DemoUser.groups u) |}).
Proof.
  intros Hsecret Hlt. unfold createSessionJWT.
  edestruct (sign_verify hmac decodeJws encodeJws decode_encode decode_empty hmac_nonempty)
    as (token & Hsign & Hverify); [ exact Hsecret | | | exact Hlt | ].
  3: { exists token. split; [ exact Hsign | ].
       unfold Legacy_verifySessionJWT. rewrite Hverify. reflexivity. }
  all: reflexivity.
Qed.

End revisions.

Lemma Toy_secret_nonempty : JWT_SECRET (Toy.boot Toy.dev) <> "".
Proof. discriminate. Qed.

Lemma legacy_session_roundtrip_witness :
  exists token,
    Legacy_createSessionJWT Toy.hmac Toy.encodeJws (Toy.boot Toy.dev) 0 Toy_legacyAdmin
    = Normal token /\
    Legacy_verifySessionJWT Toy.hmac Toy.decodeJws (Toy.boot Toy.dev) 3600 token
    = Normal (Some {| legacy_id := JStr "user-1";
                      legacy_email := JStr "admin@example.com";
                      legacy_role := JStr "admin";
                      legacy_groups :=
                        JArr [JObj [("type", JStr "team"); ("id", JStr "team-1");
                                    ("name", JStr "Engineering")]] |}).
Proof.
  exact (legacy_session_roundtrip Toy.hmac Toy.decodeJws Toy.encodeJws
           Toy_decode_encode Toy_decode_empty Toy_hmac_nonempty
           (Toy.boot Toy.dev) Toy_legacyAdmin 0 3600 Toy_secret_nonempty eq_refl).
Defined.

Lemma legacy_token_current_verify_witness :
  exists token,
    Legacy_createSessionJWT Toy.hmac Toy.encodeJws (Toy.boot Toy.dev) 0 Toy_legacyAdmin
    = Normal token /\
    Toy.verifySession (Toy.boot Toy.dev) 3600 token
    = Normal (Some {| Claims.id := JStr "user-1";
                      Claims.email := JStr "admin@example.com";
                      Claims.adminScopes := JArr [];
                      Claims.role := JStr "admin";
                      Claims.groups :=
                        JArr [JObj [("type", JStr "team"); ("id", JStr "team-1");
                                    ("name", JStr "Engineering")]] |}).
Proof.
  exact (legacy_token_current_verify Toy.hmac Toy.decodeJws Toy.encodeJws
           Toy_decode_encode Toy_decode_empty Toy_hmac_nonempty
           (Toy.boot Toy.dev) Toy_legacyAdmin 0 3600 Toy_secret_nonempty eq_refl).
Defined.

Lemma current_token_legacy_verify_witness :
  exists token,
    Toy.createSession (Toy.boot Toy.dev) 0 Toy.admin = Normal token /\
    Legacy_verifySessionJWT Toy.hmac Toy.decodeJws (Toy.boot Toy.dev) 3600 token
    = Normal (Some {| legacy_id := JStr "user-1";
                      legacy_email := JStr "admin@example.com";
                      legacy_role := JStr "admin";
                      legacy_groups := JArr (Group.toJS <$> DemoUser.groups Toy.admin) |}).
Proof.
  exact (current_token_legacy_verify Toy.hmac Toy.decodeJws Toy.encodeJws
           Toy_decode_encode Toy_decode_empty Toy_hmac_nonempty
           (Toy.boot Toy.dev) Toy.admin 0 3600 Toy_secret_nonempty eq_refl).
Defined.

(** ** The routes, one request at a time *)

Section routes_more.
Variable compareSync : string -> string -> bool.
Variable hmac : string -> string -> JValue -> JValue -> string.
Variable decodeJws : string -> option jwt.Jws.
Variable encodeJws : jwt.Jws -> string.
Variable toISOString : Z -> string.

Abbreviation verifySession := (verifySessionJWT hmac decodeJws).
Abbreviation createSession := (createSessionJWT hmac encodeJws).
Abbreviation currentUser := (getCurrentUser hmac decodeJws).
Abbreviation bridge := (vortexAuthenticateUser hmac decodeJws).
Abbreviation run := (serve compareSync hmac decodeJws encodeJws toISOString).

Ltac run_handlers :=
  unfold serve, lifecycle, preHandler, handler, requireAuth, login, logout, me,
    demoUsers, protected, status, send, setCookie, clearCookie, setReply,
    setRequest, bind, ask, lift, ret, respond, freshReply;
  cbn [server clock request reply statusCode cookieOps sent fst snd].

Lemma truthy_true (o : option string) :
  truthy o = true -> exists t, o = Some t /\ t <> "".
Proof.
  destruct o as [t | ]; [ | discriminate ]. simpl.
  destruct (String.eqb_spec t "") as [ | Hne ]; [ discriminate | eauto ].
Qed.

Lemma me_401 (s : Server) (now : Z) (req : FastifyRequest) :
  currentUser s now req = Normal None ->
  fst (run GetMe s now req)
  = {| res_status := 401; res_cookies := [];
       res_body := JObj [("error", JStr "Not authenticated")] |}.
Proof. intros H. run_handlers. rewrite H. reflexivity. Qed.

Lemma me_200 (s : Server) (now : Z) (req : FastifyRequest) (c : Claims.t) :
  currentUser s now req = Normal (Some c) ->
  fst (run GetMe s now req)
  = {| res_status := 200; res_cookies := [];
       res_body := JObj [("user", Claims_toJS c)] |}.
Proof. intros H. run_handlers. rewrite H. reflexivity. Qed.

Lemma protected_401 (s : Server) (now : Z) (req : FastifyRequest) :
  currentUser s now req = Normal None ->
  fst (run GetProtected s now req)
  = {| res_status := 401; res_cookies := [];
       res_body := JObj [("error", JStr "Authentication required")] |}.
Proof. intros H. run_handlers. rewrite H. reflexivity. Qed.

Lemma protected_200 (s : Server) (now : Z) (req : FastifyRequest) (c : Claims.t) :
  currentUser s now req = Normal (Some c) ->
  fst (run GetProtected s now req)
  = {| res_status := 200; res_cookies := [];
       res_body := JObj [ ("message", JStr "This is a protected route!");
                          ("user", Claims_toJS c);
                          ("timestamp", JStr (toISOString now)) ] |}.
Proof. intros H. run_handlers. rewrite H. reflexivity. Qed.

(** X9. [GET /api/auth/me] answers 401 with its fixed body exactly when
    [getCurrentUser] gives [None], and otherwise 200 with the claims, all
    five members, under [user]; it never sets a cookie. *)
Theorem me_outcomes (s : Server) (now : Z) (req : FastifyRequest) :
  (res_status (fst (run GetMe s now req)) = 401 <-> currentUser s now req = Normal None) /\
  (currentUser s now req = Normal None ->
   fst (run GetMe s now req)
   = {| res_status := 401; res_cookies := [];
        res_body := JObj [("error", JStr "Not authenticated")] |}) /\
  (forall c, currentUser s now req = Normal (Some c) ->
   fst (run GetMe s now req)
   = {| res_status := 200; res_cookies := [];
        res_body := JObj [("user", JObj [ ("id", Claims.id c);
                                          ("email", Claims.email c);
                                          ("adminScopes", Claims.adminScopes c);
                                          ("role", Claims.role c);
                                          ("groups", Claims.groups c) ])] |}) /\
  res_cookies (fst (run GetMe s now req)) = [].
Proof.
  destruct (getCurrentUser_total hmac decodeJws s now req) as [[c | ] Hr].
  - rewrite (me_200 s now req c Hr). cbn [res_status res_cookies].
    split; [ split; intros H; [ discriminate H | rewrite Hr in H; discriminate H ] | ].
    split; [ intros H; rewrite Hr in H; discriminate H | ].
    split; [ | reflexivity ].
    intros c' Hc'. rewrite Hr in Hc'. injection Hc' as Hc'. subst c'. reflexivity.
  - rewrite (me_401 s now req Hr). cbn [res_status res_cookies].
    split; [ split; intros _; [ exact Hr | reflexivity ] | ].
    split; [ intros _; reflexivity | ].
    split; [ | reflexivity ].
    intros c' Hc'. rewrite Hr in Hc'. discriminate Hc'.
Qed.

Abbreviation answer400 :=
  {| res_status := 400; res_cookies := [];
     res_body := JObj [("error", JStr "Email and password required")] |}.
Abbreviation answer401 :=
  {| res_status := 401; res_cookies := [];
     res_body := JObj [("error", JStr "Invalid credentials")] |}.
Abbreviation answer500 :=
  {| res_status := 500; res_cookies := [];
     res_body := JObj [("error", JStr "Internal server error")] |}.
Abbreviation answer200 s token u :=
  {| res_status := 200;
     res_cookies :=
       [ SetCookie "session" token
           {| httpOnly := true; secure := isProduction (env s);
              sameSite := "lax"; maxAge := 24 * 60 * 60 * 1000 |} ];
     res_body :=
       JObj [ ("success", JBool true);
              ("user", JObj [ ("id", JStr (DemoUser.id u));
                              ("email", JStr (DemoUser.email u));
                              ("role", JStr (DemoUser.role u));
                              ("groups", JArr (Group.toJS <$> DemoUser.groups u)) ]) ] |}.

Lemma toBoolean_JStr_true (t : string) : toBoolean (JStr t) = true -> t <> "".
Proof.
  cbn [toBoolean]. destruct (String.eqb_spec t "") as [ | H ]; [ discriminate | auto ].
Qed.

(** Every way a login can go. *)
Lemma login_cases (s : Server) (now : Z) (req : FastifyRequest) :
  ((body req = JUndefined \/ body req = JNull) /\
   fst (run PostLogin s now req) = answer500) \/
  (exists e p,
     getProp (body req) "email" = Normal e /\ getProp (body req) "password" = Normal p /\
     (((toBoolean e = false \/ toBoolean p = false) /\
       fst (run PostLogin s now req) = answer400) \/
      (toBoolean e = true /\ toBoolean p = true /\
       (((exists x, authenticateUser_any compareSync s e p = Throw x) /\
         fst (run PostLogin s now req) = answer500) \/
        (authenticateUser_any compareSync s e p = Normal None /\
         fst (run PostLogin s now req) = answer401) \/
        (exists em pw u,
           e = JStr em /\ p = JStr pw /\ em <> "" /\ pw <> "" /\
           authenticateUser compareSync s em pw = Some u /\
           ((exists token,
               createSession s now u = Normal token /\
               fst (run PostLogin s now req) = answer200 s token u) \/
            (exists x,
               createSession s now u = Throw x /\
               fst (run PostLogin s now req) = answer500))))))).
Proof.
  destruct (getProp (body req) "email") as [e | x] eqn:He.
  2: { left. apply getProp_Throw in He. split; [ exact He | ].
       now apply (login_no_body compareSync hmac decodeJws encodeJws toISOString). }
  destruct (getProp_Normal _ _ "password" _ He) as [p Hp].
  right. exists e, p. split; [ reflexivity | ]. split; [ exact Hp | ].
  destruct (toBoolean e) eqn:Te.
  2: { left. split; [ now left | ].
       apply (login_rejected compareSync hmac decodeJws encodeJws toISOString
                s now req e p He Hp). now left. }
  destruct (toBoolean p) eqn:Tp.
  2: { left. split; [ now right | ].
       apply (login_rejected compareSync hmac decodeJws encodeJws toISOString
                s now req e p He Hp). now right. }
  right. split; [ reflexivity | ]. split; [ reflexivity | ].
  destruct (authenticateUser_any compareSync s e p) as [[u | ] | x] eqn:Hauth.
  - right. right.
    destruct (authenticateUser_any_Some compareSync s e p u Hauth)
      as (em & pw & -> & -> & Ha).
    pose proof (toBoolean_JStr_true em Te) as Hem.
    pose proof (toBoolean_JStr_true pw Tp) as Hpw.
    exists em, pw, u. repeat (split; [ first [ reflexivity | assumption ] | ]).
    destruct (createSession s now u) as [token | x] eqn:Htok.
    + left. exists token. split; [ reflexivity | ].
      now apply (login_accepted compareSync hmac decodeJws encodeJws toISOString
                   s now req em pw u token).
    + right. exists x. split; [ reflexivity | ].
      now apply (login_failed_signing compareSync hmac decodeJws encodeJws toISOString
                   s now req em pw u x).
  - right. left. split; [ reflexivity | ].
    now apply (login_unauthenticated compareSync hmac decodeJws encodeJws toISOString
                 s now req e p).
  - left. split; [ eauto | ].
    now apply (login_compare_throws compareSync hmac decodeJws encodeJws toISOString
                 s now req e p x).
Qed.

(** X10. No route but the login sets a cookie, and the login sets none but
    [session], holding the token [createSessionJWT] made for a user whom
    [authenticateUser] accepted with the credentials of that request. *)
Theorem session_cookie_only_for_authenticated (route : Route) (s : Server) (now : Z)
    (req : FastifyRequest) (name value : string) (options : CookieOptions) :
  In (SetCookie name value options) (res_cookies (fst (run route s now req))) ->
  route = PostLogin /\ name = "session" /\
  exists em pw u,
    getProp (body req) "email" = Normal (JStr em) /\
    getProp (body req) "password" = Normal (JStr pw) /\
    authenticateUser compareSync s em pw = Some u /\
    createSession s now u = Normal value.
Proof.
  destruct route.
  - destruct (login_cases s now req)
      as [[_ ->] | (e & p & He & Hp &
                    [[_ ->] | (_ & _ &
                       [[_ ->] | [[_ ->] | (em & pw & u & -> & -> & _ & _ & Hauth &
                          [(token & Htok & ->) | (x & _ & ->)])]])])];
      cbn [res_cookies In]; try (intros F; destruct F; fail).
    intros [H | []]. injection H as Hn Hv Ho. subst name value.
    split; [ reflexivity | ]. split; [ reflexivity | ]. exists em, pw, u. auto.
  - change (res_cookies (fst (run PostLogout s now req))) with [ClearCookie "session"].
    intros [H | []]. discriminate H.
  - destruct (getCurrentUser_total hmac decodeJws s now req) as [[c | ] Hr].
    + rewrite (me_200 s now req c Hr). intros [].
    + rewrite (me_401 s now req Hr). intros [].
  - change (res_cookies (fst (run GetDemoUsers s now req))) with (@nil CookieOp).
    intros [].
  - destruct (getCurrentUser_total hmac decodeJws s now req) as [[c | ] Hr].
    + rewrite (protected_200 s now req c Hr). intros [].
    + rewrite (protected_401 s now req Hr). intros [].
Qed.

End routes_more.

Section login_more.
Variable hashSync : string -> Z -> string.
Variable compareSync : string -> string -> bool.
Variable hmac : string -> string -> JValue -> JValue -> string.
Variable decodeJws : string -> option jwt.Jws.
Variable encodeJws : jwt.Jws -> string.
Variable toISOString : Z -> string.

Abbreviation run := (serve compareSync hmac decodeJws encodeJws toISOString).

(** X11. On the server as loaded, a login is answered 200, 400, 401 or 500.
    It is 500 exactly when there is no body to destructure ([undefined] or
    [null]) or when the email is that of a stored user and the password is
    truthy but not a string; 200 exactly when both are non-empty strings
    that [authenticateUser] accepts; and a cookie is set exactly when the
    answer is 200. *)
Theorem login_status (e : ProcessEnv) (now : Z) (req : FastifyRequest) :
  let r := fst (run PostLogin (load hashSync e) now req) in
  (res_status r = 200 \/ res_status r = 400 \/ res_status r = 401 \/ res_status r = 500) /\
  (res_status r = 500 <->
   (body req = JUndefined \/ body req = JNull) \/
   (exists em p stored,
      getProp (body req) "email" = Normal (JStr em) /\
      getProp (body req) "password" = Normal p /\
      em <> "" /\ toBoolean p = true /\ (forall pw, p <> JStr pw) /\
      In stored (users (load hashSync e)) /\ User.email stored = em)) /\
  (res_status r = 200 <->
   exists em pw u,
     getProp (body req) "email" = Normal (JStr em) /\
     getProp (body req) "password" = Normal (JStr pw) /\
     em <> "" /\ pw <> "" /\
     authenticateUser compareSync (load hashSync e) em pw = Some u) /\
  (res_cookies r = [] <-> res_status r <> 200).
Proof.
  assert (Hsecret : JWT_SECRET (load hashSync e) <> "").
  { simpl. now apply or_else_nonempty. }
  cbv zeta. set (s := load hashSync e) in *.
  assert (Hnone : forall v : JValue,
            (v = JUndefined \/ v = JNull) -> forall k a, getProp v k <> Normal a).
  { intros v [-> | ->] k a; discriminate. }
  destruct (login_cases compareSync hmac decodeJws encodeJws toISOString s now req)
    as [[Hbody ->] | (em0 & p0 & He & Hp &
          [[Hmiss ->] | (Te & Tp &
             [[Hthrow ->] | [[Hno ->] | (em & pw & u & -> & -> & Hem & Hpw & Hauth &
                [(token & Htok & ->) | (x & Hx & _)])]])])];
    cbn [res_status res_cookies].
  - (* no body *)
    split; [ auto | ]. split; [ split; [ auto | reflexivity ] | ].
    split; [ | split; [ discriminate | reflexivity ] ].
    split; [ discriminate | ]. intros (em & pw & u & He & _).
    now destruct (Hnone _ Hbody _ _ He).
  - (* 400 *)
    split; [ auto | ]. split; [ | split; [ | split; [ discriminate | reflexivity ] ] ].
    + split; [ discriminate | ].
      intros [Hbody | (em & p & stored & He' & Hp' & Hem & Tp' & _)].
      * now destruct (Hnone _ Hbody _ _ He).
      * rewrite He in He'. injection He' as ->. rewrite Hp in Hp'. injection Hp' as ->.
        rewrite (toBoolean_JStr em Hem), Tp' in Hmiss. destruct Hmiss; discriminate.
    + split; [ discriminate | ]. intros (em & pw & u & He' & Hp' & Hem & Hpw & _).
      rewrite He in He'. injection He' as ->. rewrite Hp in Hp'. injection Hp' as ->.
      rewrite (toBoolean_JStr em Hem), (toBoolean_JStr pw Hpw) in Hmiss.
      destruct Hmiss; discriminate.
  - (* compareSync throws *)
    apply (authenticateUser_any_Throw compareSync s em0 p0) in Hthrow
      as [(em & stored & -> & Hin & Hst) Hpw].
    split; [ auto | ]. split; [ split; [ intros _ | reflexivity ] | ].
    + right. exists em, p0, stored. repeat split; try assumption.
      now apply toBoolean_JStr_true.
    + split; [ | split; [ discriminate | reflexivity ] ].
      split; [ discriminate | ]. intros (em' & pw & u & _ & Hp' & _).
      rewrite Hp in Hp'. injection Hp' as ->. now destruct (Hpw pw).
  - (* 401 *)
    split; [ auto | ]. split; [ | split; [ | split; [ discriminate | reflexivity ] ] ].
    + split; [ discriminate | ].
      intros [Hbody | (em & p & stored & He' & Hp' & Hem & Tp' & Hpw & Hin & Hst)].
      * now destruct (Hnone _ Hbody _ _ He).
      * rewrite He in He'. injection He' as ->. rewrite Hp in Hp'. injection Hp' as ->.
        assert (exists x, authenticateUser_any compareSync s (JStr em) p = Throw x) as [x Hx].
        { apply authenticateUser_any_Throw. split; [ eauto | exact Hpw ]. }
        rewrite Hno in Hx. discriminate Hx.
    + split; [ discriminate | ]. intros (em & pw & u & He' & Hp' & _ & _ & Hauth).
      rewrite He in He'. injection He' as ->. rewrite Hp in Hp'. injection Hp' as ->.
      rewrite authenticateUser_any_strings, Hauth in Hno. discriminate Hno.
  - (* 200 *)
    split; [ auto | ]. split; [ | split; [ | split; [ discriminate | intros H; now destruct H ] ] ].
    + split; [ discriminate | ].
      intros [Hbody | (em' & p & stored & _ & Hp' & _ & _ & Hnot & _)].
      * now destruct (Hnone _ Hbody _ _ He).
      * rewrite Hp in Hp'. injection Hp' as <-. now destruct (Hnot pw).
    + split; [ | reflexivity ]. intros _. exists em, pw, u. auto.
  - (* signing cannot fail on the loaded server *)
    destruct (createSessionJWT_Normal hmac encodeJws s now u Hsecret) as [token Htok].
    rewrite Htok in Hx. discriminate Hx.
Qed.

End login_more.

(** ** From login to the routes that read the session *)

Section sessions.
Variable compareSync : string -> string -> bool.
Variable hmac : string -> string -> JValue -> JValue -> string.
Variable decodeJws : string -> option jwt.Jws.
Variable encodeJws : jwt.Jws -> string.
Variable toISOString : Z -> string.

Abbreviation verifySession := (verifySessionJWT hmac decodeJws).
Abbreviation createSession := (createSessionJWT hmac encodeJws).
Abbreviation currentUser := (getCurrentUser hmac decodeJws).
Abbreviation bridge := (vortexAuthenticateUser hmac decodeJws).
Abbreviation run := (serve compareSync hmac decodeJws encodeJws toISOString).

(** Verification reads nothing of the server but its secret. *)
Lemma verifySessionJWT_secret (s s' : Server) (now : Z) (token : string) :
  JWT_SECRET s' = JWT_SECRET s ->
  verifySession s' now token = verifySession s now token.
Proof. unfold verifySessionJWT. now intros ->. Qed.

Lemma getCurrentUser_carried (s : Server) (now : Z) (req : FastifyRequest) (token : string) :
  carriesSession req token -> token <> "" ->
  currentUser s now req = verifySession s now token.
Proof.
  intros [Hsigned | (Hs & v & f & Hc & Hv & Hf & Hvalid & Hvalue)] Hne.
  - now apply getCurrentUser_signed.
  - now apply (getCurrentUser_unsigned hmac decodeJws s now req v f token).
Qed.

Lemma bridge_Some (s : Server) (now : Z) (req : FastifyRequest) (c : Claims.t) :
  currentUser s now req = Normal (Some c) ->
  bridge s now req
  = Normal (Some (JObj [ ("userId", Claims.id c);
                         ("identifiers",
                          JArr [JObj [("type", JStr "email"); ("value", Claims.email c)]]);
                         ("groups", Claims.groups c);
                         ("role", Claims.role c) ])).
Proof. unfold vortexAuthenticateUser. now intros ->. Qed.

Lemma bridge_None (s : Server) (now : Z) (req : FastifyRequest) :
  currentUser s now req = Normal None -> bridge s now req = Normal None.
Proof. unfold vortexAuthenticateUser. now intros ->. Qed.

Hypothesis decode_encode : forall j, decodeJws (encodeJws j) = Some j.
Hypothesis decode_empty : decodeJws "" = None.
Hypothesis hmac_nonempty : forall alg key h p, hmac alg key h p <> "".

(** The holder of a day-fresh token is the current user, on any server
    with the secret that signed it. *)
Lemma session_current_user (s s' : Server) (u : DemoUser.t) (t0 t1 : Z)
    (token : string) (req : FastifyRequest) :
  createSession s t0 u = Normal token ->
  JWT_SECRET s' = JWT_SECRET s ->
  carriesSession req token ->
  t1 < t0 + jwt.ONE_DAY ->
  currentUser s' t1 req = Normal (Some (Claims.of_user u)).
Proof.
  intros Hcreate Hsecret Hreq Hlt.
  pose proof Hcreate as Hinv. apply createSessionJWT_inv in Hinv as (Hne & p & Hp & _).
  rewrite (getCurrentUser_carried s' t1 req token Hreq).
  - rewrite (verifySessionJWT_secret s s' t1 token Hsecret).
    destruct (createSessionJWT_verifySessionJWT hmac decodeJws encodeJws
                decode_encode decode_empty hmac_nonempty s u t0 t1 Hne Hlt)
      as (token' & Hc & Hv).
    rewrite Hcreate in Hc. injection Hc as Hc. now subst token'.
  - rewrite Hp. apply (encode_nonempty decodeJws encodeJws decode_encode decode_empty).
Qed.

(** X12. Whoever brings back the cookie a login set is, for one day, the
    user whose credentials that login checked: [/api/auth/me] and the
    protected route answer 200 with that user's claims, [adminScopes]
    included, on any server holding the same secret, whatever its store
    holds by then.  The login's own payload had no [adminScopes]. *)
Theorem login_session_recognised (s s' : Server) (t0 t1 : Z)
    (req req' : FastifyRequest) (token : string) (options : CookieOptions) :
  res_cookies (fst (run PostLogin s t0 req)) = [SetCookie "session" token options] ->
  JWT_SECRET s' = JWT_SECRET s ->
  carriesSession req' token ->
  t1 < t0 + jwt.ONE_DAY ->
  exists em pw u userObject,
    getProp (body req) "email" = Normal (JStr em) /\
    getProp (body req) "password" = Normal (JStr pw) /\
    authenticateUser compareSync s em pw = Some u /\
    res_body (fst (run PostLogin s t0 req))
    = JObj [("success", JBool true); ("user", userObject)] /\
    getProp userObject "adminScopes" = Normal JUndefined /\
    fst (run GetMe s' t1 req')
    = {| res_status := 200; res_cookies := [];
         res_body :=
           JObj [("user",
                  JObj [ ("id", JStr (DemoUser.id u));
                         ("email", JStr (DemoUser.email u));
                         ("adminScopes", JArr (JStr <$> DemoUser.adminScopes u));
                         ("role", JStr (DemoUser.role u));
                         ("groups", JArr (Group.toJS <$> DemoUser.groups u)) ])] |} /\
    fst (run GetProtected s' t1 req')
    = {| res_status := 200; res_cookies := [];
         res_body :=
           JObj [ ("message", JStr "This is a protected route!");
                  ("user",
                   JObj [ ("id", JStr (DemoUser.id u));
                          ("email", JStr (DemoUser.email u));
                          ("adminScopes", JArr (JStr <$> DemoUser.adminScopes u));
                          ("role", JStr (DemoUser.role u));
                          ("groups", JArr (Group.toJS <$> DemoUser.groups u)) ]);
                  ("timestamp", JStr (toISOString t1)) ] |}.
Proof.
  intros Hcookie Hsecret Hreq Hlt.
  destruct (login_cases compareSync hmac decodeJws encodeJws toISOString s t0 req)
    as [[_ Hr] | (e & p & He & Hp &
          [[_ Hr] | (_ & _ &
             [[_ Hr] | [[_ Hr] | (em & pw & u & -> & -> & _ & _ & Hauth &
                [(tok & Htok & Hr) | (x & _ & Hr)])]])])];
    rewrite Hr in Hcookie; cbn [res_cookies] in Hcookie; try discriminate Hcookie.
  injection Hcookie as Htoken _. subst tok.
  pose proof (session_current_user s s' u t0 t1 token req' Htok Hsecret Hreq Hlt) as Hcur.
  exists em, pw, u. eexists. rewrite Hr. cbn [res_body].
  split; [ exact He | ]. split; [ exact Hp | ]. split; [ exact Hauth | ].
  split; [ reflexivity | ]. split; [ reflexivity | ]. split.
  - exact (me_200 compareSync hmac decodeJws encodeJws toISOString s' t1 req' _ Hcur).
  - exact (protected_200 compareSync hmac decodeJws encodeJws toISOString s' t1 req' _ Hcur).
Qed.

(** X13. The callback given to [configureVortex] never throws, answers
    [null] exactly when there is no current user, and for the holder of a
    day-fresh session token answers that user's [userId], [identifiers]
    (the one email), [groups] and [role]; it passes no [adminScopes] on. *)
Theorem vortexAuthenticateUser_identity (s : Server) (now : Z) (req : FastifyRequest) :
  (exists r, bridge s now req = Normal r) /\
  (bridge s now req = Normal None <-> currentUser s now req = Normal None) /\
  (forall u t0 token,
     createSession s t0 u = Normal token ->
     carriesSession req token ->
     now < t0 + jwt.ONE_DAY ->
     exists identity,
       bridge s now req = Normal (Some identity) /\
       getProp identity "userId" = Normal (JStr (DemoUser.id u)) /\
       getProp identity "identifiers"
       = Normal (JArr [JObj [("type", JStr "email");
                             ("value", JStr (DemoUser.email u))]]) /\
       getProp identity "groups" = Normal (JArr (Group.toJS <$> DemoUser.groups u)) /\
       getProp identity "role" = Normal (JStr (DemoUser.role u)) /\
       getProp identity "adminScopes" = Normal JUndefined).
Proof.
  split; [ | split ].
  - destruct (getCurrentUser_total hmac decodeJws s now req) as [[c | ] Hr].
    + rewrite (bridge_Some s now req c Hr). eauto.
    + rewrite (bridge_None s now req Hr). eauto.
  - destruct (getCurrentUser_total hmac decodeJws s now req) as [[c | ] Hr].
    + rewrite (bridge_Some s now req c Hr), Hr. split; intros H; discriminate H.
    + rewrite (bridge_None s now req Hr), Hr. split; reflexivity.
  - intros u t0 token Hcreate Hreq Hlt.
    pose proof (session_current_user s s u t0 now token req Hcreate eq_refl Hreq Hlt) as Hcur.
    eexists. split; [ exact (bridge_Some s now req _ Hcur) | ].
    repeat split.
Qed.

End sessions.

Lemma Toy_login_admin :
  fst (Toy.run PostLogin (Toy.boot Toy.dev) 0
         (Toy.bare (Toy.credentials "admin@example.com" "password123") ∅))
  = {| res_status := 200;
       res_cookies :=
         [ SetCookie "session" Toy.adminToken
             {| httpOnly := true; secure := false; sameSite := "lax";
                maxAge := 24 * 60 * 60 * 1000 |} ];
       res_body :=
         JObj [ ("success", JBool true);
                ("user", JObj [ ("id", JStr "user-1");
                                ("email", JStr "admin@example.com");
                                ("role", JStr "admin");
                                ("groups", JArr (Group.toJS <$> DemoUser.groups Toy.admin)) ]) ] |}.
Proof.
  rewrite (login_accepted Toy.compareSync Toy.hmac Toy.decodeJws Toy.encodeJws
             Toy.toISOString (Toy.boot Toy.dev) 0 _ "admin@example.com" "password123"
             Toy.admin Toy.adminToken);
    [ reflexivity | reflexivity | reflexivity | discriminate | discriminate
    | exact Toy_authenticate_admin | exact Toy_createSession_admin ].
Qed.

Lemma Toy_vouched_carries (token : string) :
  token <> "" ->
  carriesSession (Toy.vouched Toy.noBody {[ "session" := token ]}) token.
Proof.
  intros Hne. right. split; [ reflexivity | ].
  exists token, (fun v => {| valid := true; renew := false; value := Some v |}).
  split; [ | repeat split; assumption ].
  unfold session, Toy.vouched. cbn [cookies mbind option_bind]. apply lookup_singleton_eq.
Qed.

Lemma me_outcomes_witness :
  fst (Toy.run GetMe (Toy.boot Toy.dev) 0 (Toy.bare Toy.noBody ∅))
  = {| res_status := 401; res_cookies := [];
       res_body := JObj [("error", JStr "Not authenticated")] |}.
Proof.
  apply (me_outcomes Toy.compareSync Toy.hmac Toy.decodeJws Toy.encodeJws Toy.toISOString
           (Toy.boot Toy.dev) 0 (Toy.bare Toy.noBody ∅)).
  exact Toy_currentUser_no_cookie.
Defined.

Lemma session_cookie_only_for_authenticated_witness :
  exists em pw u,
    getProp (Toy.credentials "admin@example.com" "password123") "email"
    = Normal (JStr em) /\
    getProp (Toy.credentials "admin@example.com" "password123") "password"
    = Normal (JStr pw) /\
    authenticateUser Toy.compareSync (Toy.boot Toy.dev) em pw = Some u /\
    Toy.createSession (Toy.boot Toy.dev) 0 u = Normal Toy.adminToken.
Proof.
  assert (H : In (SetCookie "session" Toy.adminToken
                    {| httpOnly := true; secure := false; sameSite := "lax";
                       maxAge := 24 * 60 * 60 * 1000 |})
                 (res_cookies
                    (fst (Toy.run PostLogin (Toy.boot Toy.dev) 0
                            (Toy.bare (Toy.credentials "admin@example.com" "password123") ∅))))).
  { rewrite Toy_login_admin. left. reflexivity. }
  exact (proj2 (proj2 (session_cookie_only_for_authenticated Toy.compareSync Toy.hmac
                         Toy.decodeJws Toy.encodeJws Toy.toISOString PostLogin
                         (Toy.boot Toy.dev) 0 _ _ _ _ H))).
Defined.

Lemma login_session_recognised_witness :
  fst (Toy.run GetMe Toy_emptied 3600
         (Toy.vouched Toy.noBody {[ "session" := Toy.adminToken ]}))
  = {| res_status := 200; res_cookies := [];
       res_body := JObj [("user", Claims_toJS (Claims.of_user Toy.admin))] |}.
Proof.
  destruct (login_session_recognised Toy.compareSync Toy.hmac Toy.decodeJws Toy.encodeJws
              Toy.toISOString Toy_decode_encode Toy_decode_empty Toy_hmac_nonempty
              (Toy.boot Toy.dev) Toy_emptied 0 3600
              (Toy.bare (Toy.credentials "admin@example.com" "password123") ∅)
              (Toy.vouched Toy.noBody {[ "session" := Toy.adminToken ]})
              Toy.adminToken
              {| httpOnly := true; secure := false; sameSite := "lax";
                 maxAge := 24 * 60 * 60 * 1000 |})
    as (em & pw & u & userObject & He & Hp & Hauth & _ & _ & Hme & _).
  - rewrite Toy_login_admin. reflexivity.
  - reflexivity.
  - apply Toy_vouched_carries, Toy_adminToken_nonempty.
  - reflexivity.
  - injection He as <-. injection Hp as <-.
    rewrite Toy_authenticate_admin in Hauth. injection Hauth as <-.
    exact Hme.
Defined.

Lemma vortexAuthenticateUser_identity_witness :
  exists identity,
    vortexAuthenticateUser Toy.hmac Toy.decodeJws (Toy.boot Toy.dev) 3600
      (Toy.vouched Toy.noBody {[ "session" := Toy.adminToken ]})
    = Normal (Some identity) /\
    getProp identity "userId" = Normal (JStr "user-1") /\
    getProp identity "adminScopes" = Normal JUndefined.
Proof.
  destruct (proj2 (proj2 (vortexAuthenticateUser_identity Toy.hmac Toy.decodeJws
                            Toy.encodeJws Toy_decode_encode Toy_decode_empty
                            Toy_hmac_nonempty (Toy.boot Toy.dev) 3600
                            (Toy.vouched Toy.noBody {[ "session" := Toy.adminToken ]})))
              Toy.admin 0 Toy.adminToken Toy_createSession_admin
              (Toy_vouched_carries _ Toy_adminToken_nonempty) eq_refl)
    as (identity & Hb & Hid & _ & _ & _ & Hscopes).
  exists identity. repeat split; assumption.
Defined.

(** ** The fallback secret *)

Definition Toy_blank : ProcessEnv :=
  {| env_JWT_SECRET := Some ""; env_NODE_ENV := Some "production" |}.

Lemma or_else_default (a : option string) (b : string) :
  truthy a = false -> or_else a b = b.
Proof.
  intros H. destruct (truthy_false a H) as [-> | ->]; reflexivity.
Qed.

Section fallback.
Variable hashSync : string -> Z -> string.
Variable hmac : string -> string -> JValue -> JValue -> string.
Variable decodeJws : string -> option jwt.Jws.
Variable encodeJws : jwt.Jws -> string.
Hypothesis decode_encode : forall j, decodeJws (encodeJws j) = Some j.
Hypothesis decode_empty : decodeJws "" = None.
Hypothesis hmac_nonempty : forall alg key h p, hmac alg key h p <> "".

(** X14. A server started with [JWT_SECRET] unset or empty signs with
    ["demo-secret-key"], so any two such servers accept each other's
    sessions. *)
Theorem default_secret_shared (e e' : ProcessEnv) (u : DemoUser.t) (t0 t1 : Z) :
  truthy (env_JWT_SECRET e) = false ->
  truthy (env_JWT_SECRET e') = false ->
  t1 < t0 + jwt.ONE_DAY ->
  JWT_SECRET (load hashSync e) = "demo-secret-key" /\
  exists token,
    createSessionJWT hmac encodeJws (load hashSync e) t0 u = Normal token /\
    verifySessionJWT hmac decodeJws (load hashSync e') t1 token
    = Normal (Some (Claims.of_user u)).
Proof.
  intros He He' Hlt.
  assert (Hs : JWT_SECRET (load hashSync e) = "demo-secret-key").
  { cbn [JWT_SECRET load]. now apply or_else_default. }
  assert (Hs' : JWT_SECRET (load hashSync e') = JWT_SECRET (load hashSync e)).
  { rewrite Hs. cbn [JWT_SECRET load]. now apply or_else_default. }
  split; [ exact Hs | ].
  destruct (createSessionJWT_verifySessionJWT hmac decodeJws encodeJws
              decode_encode decode_empty hmac_nonempty (load hashSync e) u t0 t1)
    as (token & Hc & Hv); [ rewrite Hs; discriminate | exact Hlt | ].
  exists token. split; [ exact Hc | ].
  now rewrite (verifySessionJWT_secret hmac decodeJws (load hashSync e)
                 (load hashSync e') t1 token Hs').
Qed.

End fallback.

Lemma default_secret_shared_witness :
  exists token,
    Toy.createSession (Toy.boot Toy.dev) 0 Toy.admin = Normal token /\
    Toy.verifySession (Toy.boot Toy_blank) 3600 token
    = Normal (Some (Claims.of_user Toy.admin)).
Proof.
  exact (proj2 (default_secret_shared Toy.hashSync Toy.hmac Toy.decodeJws Toy.encodeJws
                  Toy_decode_encode Toy_decode_empty Toy_hmac_nonempty
                  Toy.dev Toy_blank Toy.admin 0 3600 eq_refl eq_refl eq_refl)).
Defined.

(** *** The cookie of a login, brought back *)

(** C5. The request that brings back the [session] cookie exactly as the
    login route set it: the cookie is present, [verifySessionJWT] accepts
    its value, and yet [getCurrentUser] answers [None] and
    [/api/auth/me] 401.  The route set the cookie unsigned, there is no
    [signedCookies], and [unsignCookie] does not vouch for a value that
    carries no cookie signature, so the token never reaches
    [verifySessionJWT]. *)
Theorem getCurrentUser_ignores_login_cookie :
  res_cookies (fst (Toy.run PostLogin (Toy.boot Toy.dev) 0
                      (Toy.bare (Toy.credentials "admin@example.com" "password123") ∅)))
  = [ SetCookie "session" Toy.adminToken
        {| httpOnly := true; secure := false; sameSite := "lax";
           maxAge := 24 * 60 * 60 * 1000 |} ] /\
  session (cookies (Toy.bare Toy.noBody {[ "session" := Toy.adminToken ]}))
  = Some Toy.adminToken /\
  Toy.verifySession (Toy.boot Toy.dev) 0 Toy.adminToken
  = Normal (Some (Claims.of_user Toy.admin)) /\
  Toy.currentUser (Toy.boot Toy.dev) 0
    (Toy.bare Toy.noBody {[ "session" := Toy.adminToken ]})
  = Normal None /\
  fst (Toy.run GetMe (Toy.boot Toy.dev) 0
         (Toy.bare Toy.noBody {[ "session" := Toy.adminToken ]}))
  = {| res_status := 401; res_cookies := [];
       res_body := JObj [("error", JStr "Not authenticated")] |}.
Proof.
  assert (Hnone : Toy.currentUser (Toy.boot Toy.dev) 0
                    (Toy.bare Toy.noBody {[ "session" := Toy.adminToken ]})
                  = Normal None).
  { apply (getCurrentUser_rejected Toy.hmac Toy.decodeJws (Toy.boot Toy.dev) 0 _
             Toy.adminToken).
    - reflexivity.
    - apply Toy_session_lookup.
    - intros f Hf. injection Hf as <-. reflexivity. }
  split; [ now rewrite Toy_login_admin | ].
  split; [ apply Toy_session_lookup | ].
  split; [ exact Toy_verifySession_admin | ].
  split; [ exact Hnone | ].
  exact (me_401 Toy.compareSync Toy.hmac Toy.decodeJws Toy.encodeJws Toy.toISOString
           (Toy.boot Toy.dev) 0 _ Hnone).
Qed.
